(** * garmin-to-notion: the daily-steps synchronisation script

    A shallow embedding of [daily-steps.py].  The script fetches a week of
    step records from the fitness service, upserts them into a remote steps
    table and derives three wellness flags per day.

    The development has three layers:
    - [Py]: the Python values the script handles (decoded JSON) and the
      built-in operations it applies to them, with the exceptions they raise;
    - [Remote]: the two collaborators (fitness service, table service) as
      an explicit state with a request log, and the small state-and-exception
      monad the script runs in;
    - [DailySteps]: the script itself, one definition per Python function.

    Console output ([print]) is not modelled. *)

From Stdlib Require Import ZArith NArith List String Ascii Bool Lia.
From Stdlib Require Import Floats.SpecFloat.
From Stdlib Require DecimalString.
Import ListNotations.

Set Implicit Arguments.
Set Warnings "-register-all".

(* ===================================================================== *)
(** * Python values and built-ins *)
(* ===================================================================== *)

Module Py.

#[local] Open Scope string_scope.
#[local] Open Scope Z_scope.

(** Exceptions.  The built-in ones carry no text: the script inspects the
    text of an exception only in the handlers around the fitness-service
    calls, and the only built-in exception that can reach those is the
    [TypeError] of [daily_steps += steps], whose message
    ("'...' object is not iterable") holds neither rate-limit marker.
    [RemoteError msg] is an exception raised by a client library, with
    [str(e) = msg]. *)
Inductive exn : Type :=
| TypeError
| AttributeError
| KeyError
| ValueError
| OverflowError
| ZeroDivisionError
| RecursionError
| RemoteError (msg : string).

Inductive result (A : Type) : Type :=
| Ok (a : A)
| Raise (e : exn).
Arguments Ok {A} a.
Arguments Raise {A} e.

Definition rbind {A B} (r : result A) (k : A -> result B) : result B :=
  match r with
  | Ok a => k a
  | Raise e => Raise e
  end.

Declare Scope result_scope.
Delimit Scope result_scope with result.
Notation "'let?' x ':=' r 'in' k" := (rbind r (fun x => k))
  (at level 10, x name, r at level 200, k at level 200) : result_scope.

(** ** Floats: IEEE 754 binary64, as Python's [float] *)

Definition prec : Z := 53.
Definition emax : Z := 1024.
Definition float := spec_float.

(** The double nearest to [n / d] for positive integers [n] and [d]
    (round half to even), with sign [neg]. *)
Definition float_of_ratio (neg : bool) (n d : Z) : float :=
  let '(m, e, l) := SFdiv_core_binary prec emax n 0 d 0 in
  binary_round_aux prec emax neg m e l.

(** [float(z)]: the double nearest to the integer [z]. *)
Definition float_of_Z (z : Z) : float := binary_normalize prec emax z 0 false.

Definition float_is_zero (f : float) : bool :=
  match f with S754_zero _ => true | _ => false end.

Definition float_is_finite (f : float) : bool :=
  match f with S754_zero _ | S754_finite _ _ _ => true | _ => false end.

(** [n / d] rounded to the nearest integer, ties to even ([d > 0], [n >= 0]). *)
Definition div_half_even (n d : Z) : Z :=
  let q := n / d in
  let r := n mod d in
  match 2 * r ?= d with
  | Lt => q
  | Gt => q + 1
  | Eq => if Z.even q then q else q + 1
  end.

(** [round(f, ndigits)] on a float, for [ndigits >= 0]: the exact value of
    [f] is rounded to [ndigits] decimals (ties to even), and the decimal is
    converted back to the nearest double.  Zeros, infinities and NaN are
    returned unchanged. *)
Definition float_round (f : float) (ndigits : N) : float :=
  match f with
  | S754_finite s m e =>
      let p := 10 ^ Z.of_N ndigits in
      let k := if 0 <=? e then Zpos m * 2 ^ e * p
               else div_half_even (Zpos m * p) (2 ^ (- e)) in
      if k =? 0 then S754_zero s else float_of_ratio s k p
  | _ => f
  end.

(** ** Values *)

Inductive pyval : Type :=
| PNone
| PBool (b : bool)
| PInt (z : Z)
| PFloat (f : float)
| PStr (s : string)
| PList (l : list pyval)
| PDict (d : list (string * pyval)).

Definition dict := list (string * pyval).

Fixpoint dict_lookup (k : string) (d : dict) : option pyval :=
  match d with
  | [] => None
  | (k', v) :: d' => if String.eqb k k' then Some v else dict_lookup k d'
  end.

(** [k in d] for a dict [d]. *)
Definition dict_has (k : string) (d : dict) : bool :=
  match dict_lookup k d with Some _ => true | None => false end.

(** [o.get(k, default)]: only dicts have a [get] method. *)
Definition py_get (o : pyval) (k : string) (default : pyval) : result pyval :=
  match o with
  | PDict d => Ok (match dict_lookup k d with Some v => v | None => default end)
  | _ => Raise AttributeError
  end.

(** [o[k]] for a string key [k]. *)
Definition py_getitem (o : pyval) (k : string) : result pyval :=
  match o with
  | PDict d => match dict_lookup k d with Some v => Ok v | None => Raise KeyError end
  | _ => Raise TypeError
  end.

(** Truth value, as tested by [if], [not], [and], [or]. *)
Definition py_truthy (v : pyval) : bool :=
  match v with
  | PNone => false
  | PBool b => b
  | PInt z => negb (z =? 0)
  | PFloat f => negb (float_is_zero f)
  | PStr s => negb (String.eqb s "")
  | PList l => match l with [] => false | _ => true end
  | PDict d => match d with [] => false | _ => true end
  end.

(** ** Numbers *)

(** [bool] is a subclass of [int]. *)
Definition as_int (v : pyval) : option Z :=
  match v with
  | PBool b => Some (if b then 1 else 0)
  | PInt z => Some z
  | _ => None
  end.

(** Conversion of an int operand to float, as the arithmetic operators do
    it: [OverflowError] beyond the range of a double. *)
Definition int_to_float (z : Z) : result float :=
  let f := float_of_Z z in
  if float_is_finite f then Ok f else Raise OverflowError.

(** [a / b] on two ints: the correctly rounded quotient. *)
Definition int_truediv (a b : Z) : result float :=
  if b =? 0 then Raise ZeroDivisionError
  else
    let neg := xorb (a <? 0) (b <? 0) in
    if a =? 0 then Ok (S754_zero neg)
    else
      let f := float_of_ratio neg (Z.abs a) (Z.abs b) in
      if float_is_finite f then Ok f else Raise OverflowError.

Definition float_truediv (f g : float) : result float :=
  if float_is_zero g then Raise ZeroDivisionError
  else Ok (SFdiv prec emax f g).

(** [a / b]. *)
Definition py_truediv (a b : pyval) : result pyval :=
  match a, b with
  | PFloat f, PFloat g =>
      let? q := float_truediv f g in Ok (PFloat q)
  | PFloat f, _ =>
      match as_int b with
      | Some y => let? g := int_to_float y in
                  let? q := float_truediv f g in Ok (PFloat q)
      | None => Raise TypeError
      end
  | _, PFloat g =>
      match as_int a with
      | Some x => let? f := int_to_float x in
                  let? q := float_truediv f g in Ok (PFloat q)
      | None => Raise TypeError
      end
  | _, _ =>
      match as_int a, as_int b with
      | Some x, Some y => let? q := int_truediv x y in Ok (PFloat q)
      | _, _ => Raise TypeError
      end
  end%result.

(** [round(v, ndigits)] with a non-negative [ndigits]: an int is returned
    as an int, a float is rounded to [ndigits] decimals. *)
Definition py_round (v : pyval) (ndigits : N) : result pyval :=
  match v with
  | PFloat f => Ok (PFloat (float_round f ndigits))
  | PBool b => Ok (PInt (if b then 1 else 0))
  | PInt z => Ok (PInt z)
  | _ => Raise TypeError
  end.

(** Exact comparison of an int with a float ([None] against NaN). *)
Definition cmp_int_float (z : Z) (f : float) : option comparison :=
  match f with
  | S754_zero _ => Some (z ?= 0)
  | S754_infinity s => Some (if s then Gt else Lt)
  | S754_nan => None
  | S754_finite s m e =>
      let v := if s then Zneg m else Zpos m in
      Some (if 0 <=? e then z ?= v * 2 ^ e else z * 2 ^ (- e) ?= v)
  end.

Definition num_cmp (a b : pyval) : option (option comparison) :=
  match a, b with
  | PFloat f, PFloat g => Some (SFcompare f g)
  | PFloat f, _ =>
      match as_int b with
      | Some y => Some (option_map CompOpp (cmp_int_float y f))
      | None => None
      end
  | _, PFloat g =>
      match as_int a with
      | Some x => Some (cmp_int_float x g)
      | None => None
      end
  | _, _ =>
      match as_int a, as_int b with
      | Some x, Some y => Some (Some (x ?= y))
      | _, _ => None
      end
  end.

(** [a == b].  Numbers compare by value across [bool], [int] and [float];
    lists element by element; dicts as sets of key/value pairs. *)
Fixpoint py_eq (a b : pyval) {struct a} : bool :=
  match a, b with
  | PNone, PNone => true
  | PStr s, PStr t => String.eqb s t
  | PList l, PList m =>
      (fix go (l m : list pyval) {struct l} : bool :=
         match l, m with
         | [], [] => true
         | x :: l', y :: m' => py_eq x y && go l' m'
         | _, _ => false
         end) l m
  | PDict d, PDict d' =>
      Nat.eqb (List.length d) (List.length d') &&
      (fix go (d : dict) {struct d} : bool :=
         match d with
         | [] => true
         | (k, v) :: r =>
             match dict_lookup k d' with
             | Some w => py_eq v w && go r
             | None => false
             end
         end) d
  | _, _ =>
      match num_cmp a b with
      | Some (Some Eq) => true
      | _ => false
      end
  end.

(** [a != b]. *)
Definition py_ne (a b : pyval) : bool := negb (py_eq a b).

(** [a >= b]: defined between numbers, between strings and between lists
    (lexicographic); [TypeError] otherwise. *)
Fixpoint py_ge (a b : pyval) {struct a} : result bool :=
  match a, b with
  | PStr s, PStr t => Ok (String.leb t s)
  | PList l, PList m =>
      (fix go (l m : list pyval) {struct l} : result bool :=
         match l, m with
         | x :: l', y :: m' => if py_eq x y then go l' m' else py_ge x y
         | _, [] => Ok true
         | [], _ :: _ => Ok false
         end) l m
  | _, _ =>
      match num_cmp a b with
      | Some (Some Lt) => Ok false
      | Some (Some _) => Ok true
      | Some None => Ok false
      | None => Raise TypeError
      end
  end.

(** ** [int(...)] *)

(** Whitespace that [int] strips around a numeral (ASCII range). *)
Definition is_space (c : ascii) : bool :=
  let n := nat_of_ascii c in
  (Nat.leb 9 n && Nat.leb n 13) || (Nat.leb 28 n && Nat.leb n 32).

Definition digit_of (c : ascii) : option Z :=
  let n := nat_of_ascii c in
  if Nat.leb 48 n && Nat.leb n 57 then Some (Z.of_nat (n - 48)) else None.

Fixpoint lstrip (s : string) : string :=
  match s with
  | String c s' => if is_space c then lstrip s' else s
  | EmptyString => EmptyString
  end.

(** The string is blank: only whitespace is left. *)
Definition all_space (s : string) : bool :=
  match lstrip s with EmptyString => true | _ => false end.

(** Digits of a decimal numeral after its first digit, value so far [acc]:
    a single underscore may separate two digits; trailing whitespace ends
    the numeral. *)
Fixpoint parse_digits (acc : Z) (s : string) : option Z :=
  match s with
  | EmptyString => Some acc
  | String c s' =>
      match digit_of c with
      | Some d => parse_digits (10 * acc + d) s'
      | None =>
          if Ascii.eqb c "_" then
            match s' with
            | String c' s'' =>
                match digit_of c' with
                | Some d => parse_digits (10 * acc + d) s''
                | None => None
                end
            | EmptyString => None
            end
          else if all_space s then Some acc
          else None
      end
  end.

Definition parse_unsigned (s : string) : option Z :=
  match s with
  | String c s' =>
      match digit_of c with
      | Some d => parse_digits d s'
      | None => None
      end
  | EmptyString => None
  end.

(** [int(s)] on a string, base 10 (ASCII digits). *)
Definition parse_int (s : string) : option Z :=
  match lstrip s with
  | String "-" s' => option_map Z.opp (parse_unsigned s')
  | String "+" s' => parse_unsigned s'
  | s' => parse_unsigned s'
  end.

(** [int(f)] on a float: truncation toward zero. *)
Definition float_trunc (f : float) : result Z :=
  match f with
  | S754_zero _ => Ok 0
  | S754_infinity _ => Raise OverflowError
  | S754_nan => Raise ValueError
  | S754_finite s m e =>
      let a := if 0 <=? e then Zpos m * 2 ^ e else Zpos m / 2 ^ (- e) in
      Ok (if s then - a else a)
  end.

(** [int(v)]. *)
Definition py_int (v : pyval) : result pyval :=
  match v with
  | PBool b => Ok (PInt (if b then 1 else 0))
  | PInt z => Ok (PInt z)
  | PFloat f => let? z := float_trunc f in Ok (PInt z)
  | PStr s =>
      match parse_int s with
      | Some z => Ok (PInt z)
      | None => Raise ValueError
      end
  | _ => Raise TypeError
  end%result.

(** [isinstance(v, (int, float, str))]. *)
Definition is_int_float_str (v : pyval) : bool :=
  match v with
  | PBool _ | PInt _ | PFloat _ | PStr _ => true
  | _ => false
  end.

(** ** Strings *)

(** [needle in hay] for two strings. *)
Fixpoint contains (needle hay : string) : bool :=
  String.prefix needle hay ||
  match hay with
  | EmptyString => false
  | String _ hay' => contains needle hay'
  end.

(** The test of the three handlers:
    ["429" in str(e) or "Too Many Requests" in str(e)]. *)
Definition is_rate_limit (e : exn) : bool :=
  match e with
  | RemoteError msg => contains "429" msg || contains "Too Many Requests" msg
  | _ => false
  end.

(** ** Lists *)

(** [acc += v] on a list [acc]: extends it with the elements of an
    iterable (the items of a list, the keys of a dict, the characters of a
    string); [TypeError] when [v] is not iterable. *)
Definition py_iadd (acc : list pyval) (v : pyval) : result (list pyval) :=
  match v with
  | PList l => Ok (acc ++ l)
  | PDict d => Ok (acc ++ map (fun kv => PStr (fst kv)) d)
  | PStr s => Ok (acc ++ map (fun c => PStr (String c EmptyString))
                             (list_ascii_of_string s))
  | _ => Raise TypeError
  end%list.

End Py.

(* ===================================================================== *)
(** * The collaborators and the monad of the script *)
(* ===================================================================== *)

Module Remote.
Import Py.

#[local] Open Scope string_scope.

(** ** Requests *)

(** One predicate of a table query, on a named property. *)
Inductive cond : Type :=
| DateEquals (property : string) (value : pyval)
| TitleEquals (property : string) (value : string)
| SelectDoesNotEqual (property : string) (value : string).

(** The [filter] argument of [databases.query]: one predicate
    ([{"property": ..., ...}]) or a conjunction ([{"and": [...]}]). *)
Inductive filter : Type :=
| Single (c : cond)
| And (cs : list cond).

(** Everything the script asks of the outside world, in order.  A request
    is logged when it is made, whether or not it succeeds. *)
Inductive event : Type :=
| Login
| GetDailySteps (day : Z)
| GetSleepData (date : pyval)
| Sleep (seconds : pyval)
| Query (database_id : option string) (f : filter)
| PagesCreate (database_id : option string) (properties : dict)
| PagesUpdate (page_id : pyval) (properties : dict).

(** ** The fitness service and the failures of the table service

    The replies are given by oracles indexed by the number of remote calls
    made so far, so that a reply may change from one call to the next (a
    rate limit that clears, a day that stops answering). *)

Inductive reply : Type :=
| Returns (v : pyval)
| Fails (msg : string).

Record service : Type := {
  login_reply : nat -> option string;
  steps_reply : nat -> Z -> reply;
  sleep_reply : nat -> pyval -> reply;
  table_fault : nat -> option string
}.

(** ** The table service

    A table row (a page) has an identifier, the table it belongs to and its
    properties, stored as they were written.  A query returns the rows of
    one table that satisfy the filter, oldest first, each as the object
    [{"id": ..., "properties": {...}}]. *)

Record page : Type := {
  page_id : pyval;
  parent : option string;
  props : dict
}.

Definition page_object (p : page) : pyval :=
  PDict [("id", page_id p); ("properties", PDict (props p))].

(** The plain text of a stored title: the contents of its text items. *)
Fixpoint title_text (items : list pyval) : string :=
  match items with
  | [] => ""
  | PDict item :: items' =>
      match dict_lookup "text" item with
      | Some (PDict t) =>
          match dict_lookup "content" t with
          | Some (PStr c) => c ++ title_text items'
          | _ => title_text items'
          end
      | _ => title_text items'
      end
  | _ :: items' => title_text items'
  end.

Definition holds (c : cond) (p : page) : bool :=
  match c with
  | DateEquals name v =>
      match dict_lookup name (props p) with
      | Some (PDict [("date", PDict d)]) =>
          match dict_lookup "start" d with
          | Some start => py_eq start v
          | None => false
          end
      | _ => false
      end
  | TitleEquals name s =>
      match dict_lookup name (props p) with
      | Some (PDict [("title", PList items)]) => String.eqb (title_text items) s
      | _ => false
      end
  | SelectDoesNotEqual name s =>
      match dict_lookup name (props p) with
      | Some (PDict [("select", PDict o)]) =>
          match dict_lookup "name" o with
          | Some (PStr n) => negb (String.eqb n s)
          | _ => true
          end
      | Some (PDict [("select", PNone)]) => true
      | None => true
      | Some _ => false
      end
  end.

Definition matches (f : filter) (p : page) : bool :=
  match f with
  | Single c => holds c p
  | And cs => forallb (fun c => holds c p) cs
  end.

Definition in_table (database_id : option string) (p : page) : bool :=
  match database_id, parent p with
  | Some a, Some b => String.eqb a b
  | _, _ => false
  end.

Definition select_rows (database_id : option string) (f : filter)
    (pages : list page) : list pyval :=
  map page_object
      (List.filter (fun p => in_table database_id p && matches f p) pages).

(** A partial update: the properties named in the request replace the
    stored ones, the others are kept. *)
Fixpoint dict_set (k : string) (v : pyval) (d : dict) : dict :=
  match d with
  | [] => [(k, v)]
  | (k', v') :: d' =>
      if String.eqb k k' then (k, v) :: d' else (k', v') :: dict_set k v d'
  end.

Definition patch (old new : dict) : dict :=
  fold_left (fun d kv => dict_set (fst kv) (snd kv) d) new old.

Definition has_id (id : pyval) (p : page) : bool := py_eq (page_id p) id.

Definition patch_page (id : pyval) (new : dict) (p : page) : page :=
  if has_id id p
  then {| page_id := page_id p; parent := parent p; props := patch (props p) new |}
  else p.

(** ** State *)

Record state : Type := {
  calls : nat;
  pages : list page
}.

Definition initial (ps : list page) : state := {| calls := 0; pages := ps |}.

(** One more remote call made. *)
Definition called (st : state) : state :=
  {| calls := S (calls st); pages := pages st |}.

Definition with_pages (ps : list page) (st : state) : state :=
  {| calls := calls st; pages := ps |}.

(** The identifier given to the next created row. *)
Definition fresh_id (st : state) : pyval :=
  PStr ("page-" ++ DecimalString.NilZero.string_of_uint
                     (Nat.to_uint (List.length (pages st)))).

(** ** The monad: state, a log of requests, and exceptions

    A computation started in a state ends with a value or an exception,
    the state it leaves (an exception does not undo what was done before
    it) and the requests it made, in order. *)

Record outcome (A : Type) : Type := Out {
  res : result A;
  after : state;
  trace : list event
}.
Arguments Out {A} res after trace.
Arguments res {A} o.
Arguments after {A} o.
Arguments trace {A} o.

Definition M (A : Type) : Type := state -> outcome A.

Definition ret {A} (a : A) : M A := fun st => Out (Ok a) st [].

Definition raise {A} (e : exn) : M A := fun st => Out (Raise e) st [].

(** A pure operation that may raise. *)
Definition lift {A} (r : result A) : M A := fun st => Out r st [].

Definition bind {A B} (m : M A) (k : A -> M B) : M B :=
  fun st =>
    let o := m st in
    match res o with
    | Ok a =>
        let o' := k a (after o) in
        Out (res o') (after o') (trace o ++ trace o')%list
    | Raise e => Out (Raise e) (after o) (trace o)
    end.

(** Runs [m] and hands over how it ended, exception included. *)
Definition attempt {A} (m : M A) : M (result A) :=
  fun st => let o := m st in Out (Ok (res o)) (after o) (trace o).

(** [try: m except Exception as e: handler e]. *)
Definition try_except {A} (m : M A) (handler : exn -> M A) : M A :=
  bind (attempt m) (fun r =>
    match r with
    | Ok a => ret a
    | Raise e => handler e
    end).

Declare Scope py_scope.
Delimit Scope py_scope with py.
Notation "x <- m ;; k" := (bind m (fun x => k))
  (at level 61, m at next level, right associativity) : py_scope.
Notation "m ;; k" := (bind m (fun _ => k))
  (at level 61, right associativity) : py_scope.

Section Calls.

Variable srv : service.

(** A call to the fitness-service client: the request is logged, the call
    counted, and the call returns or raises as the service decides. *)
Definition garmin_call {A} (ev : event) (r : state -> result A) : M A :=
  fun st => Out (r st) (called st) [ev].

(** A call to the table client, which may also change the rows. *)
Definition table_call {A} (ev : event) (r : state -> result A * list page)
    : M A :=
  fun st =>
    let '(v, ps) := r st in
    Out v (with_pages ps (called st)) [ev].

Definition of_reply (r : reply) : result pyval :=
  match r with
  | Returns v => Ok v
  | Fails msg => Raise (RemoteError msg)
  end.

(** [garmin.login()]. *)
Definition garmin_login : M unit :=
  garmin_call Login (fun st =>
    match login_reply srv (calls st) with
    | None => Ok tt
    | Some msg => Raise (RemoteError msg)
    end).

(** [garmin.get_daily_steps(d.isoformat(), d.isoformat())]; the day is
    kept as its ordinal. *)
Definition garmin_get_daily_steps (d : Z) : M pyval :=
  garmin_call (GetDailySteps d) (fun st =>
    of_reply (steps_reply srv (calls st) d)).

(** [garmin.get_sleep_data(date)]. *)
Definition garmin_get_sleep_data (date : pyval) : M pyval :=
  garmin_call (GetSleepData date) (fun st =>
    of_reply (sleep_reply srv (calls st) date)).

(** [time.sleep(seconds)]. *)
Definition time_sleep (seconds : pyval) : M unit :=
  fun st => Out (Ok tt) st [Sleep seconds].

(** [client.databases.query(database_id=..., filter=...)['results']]. *)
Definition databases_query (database_id : option string) (f : filter)
    : M (list pyval) :=
  table_call (Query database_id f) (fun st =>
    (match table_fault srv (calls st) with
     | Some msg => Raise (RemoteError msg)
     | None => Ok (select_rows database_id f (pages st))
     end, pages st)).

(** [client.pages.create(parent={"database_id": ...}, properties=...)]. *)
Definition pages_create (database_id : option string) (properties : dict)
    : M unit :=
  table_call (PagesCreate database_id properties) (fun st =>
    match table_fault srv (calls st) with
    | Some msg => (Raise (RemoteError msg), pages st)
    | None =>
        let p := {| page_id := fresh_id st; parent := database_id;
                    props := properties |} in
        (Ok tt, (pages st ++ [p])%list)
    end).

(** [client.pages.update(page_id=..., properties=...)]. *)
Definition pages_update (id : pyval) (properties : dict) : M unit :=
  table_call (PagesUpdate id properties) (fun st =>
    match table_fault srv (calls st) with
    | Some msg => (Raise (RemoteError msg), pages st)
    | None =>
        if existsb (has_id id) (pages st)
        then (Ok tt, map (patch_page id properties) (pages st))
        else (Raise (RemoteError "object_not_found"), pages st)
    end).

End Calls.

End Remote.

(* ===================================================================== *)
(** * The script *)
(* ===================================================================== *)

Module DailySteps.
Import Py Remote.

#[local] Open Scope string_scope.
#[local] Open Scope py_scope.

(** The environment variables read with [os.getenv]: unset is [None]. *)
Record environ : Type := {
  NOTION_STEPS_DB_ID : option string;
  NOTION_WELLNESS_DB_ID : option string;
  NOTION_DB_ID : option string
}.

(** The float [0.5] of the pause after a successful fetch. *)
Definition half : float := float_of_ratio false 1 2.

(** [10 * (2 ** retry_count)]. *)
Definition retry_after (retry_count : nat) : Z := 10 * 2 ^ Z.of_nat retry_count.

(** The dates of [get_all_daily_steps], as ordinals: from seven days before
    [today] up to [today]. *)
Definition daterange (today : Z) : list Z :=
  let startdate := (today - 7)%Z in
  map (fun x => (startdate + Z.of_nat x)%Z)
      (seq 0 (Z.to_nat (today - startdate + 1))).

(** [for x in xs: body x]. *)
Fixpoint for_each {A} (xs : list A) (body : A -> M unit) : M unit :=
  match xs with
  | [] => ret tt
  | x :: xs' => body x ;; for_each xs' body
  end.

(** [key in o] for a string [key]. *)
Definition py_in (key : string) (o : pyval) : result bool :=
  match o with
  | PDict d => Ok (dict_has key d)
  | PList l => Ok (existsb (py_eq (PStr key)) l)
  | PStr s => Ok (contains key s)
  | _ => Raise TypeError
  end.

(** [extract_sleep_metrics(sleep_data)]. *)
Definition extract_sleep_metrics (sleep_data : pyval) : result (pyval * pyval) :=
  if negb (py_truthy sleep_data) then Ok (PInt 0, PInt 0)
  else
    match sleep_data with
    | PList (sleep_entry :: _) =>
        let? seconds := py_get sleep_entry "sleepTimeSeconds" (PInt 0) in
        let? sleep_duration := py_truediv seconds (PInt 3600) in
        let? sleep_score := py_get sleep_entry "sleepScore" (PInt 0) in
        Ok (sleep_duration, sleep_score)
    | PDict d =>
        if dict_has "dailySleepDTO" d then
          let? daily_sleep := py_getitem sleep_data "dailySleepDTO" in
          let? seconds := py_get daily_sleep "sleepTimeSeconds" (PInt 0) in
          let? sleep_duration := py_truediv seconds (PInt 3600) in
          let? has_scores := py_in "sleepScores" daily_sleep in
          let? scores := (if has_scores
                          then py_getitem daily_sleep "sleepScores"
                          else Ok (PBool false)) in
          if py_truthy scores then
            let? overall := py_get scores "overall" (PDict []) in
            match overall with
            | PDict o =>
                if dict_has "value" o then
                  let? value := py_getitem overall "value" in
                  let? sleep_score := py_int value in
                  Ok (sleep_duration, sleep_score)
                else Ok (sleep_duration, PInt 0)
            | _ =>
                if is_int_float_str overall then
                  let? sleep_score := py_int overall in
                  Ok (sleep_duration, sleep_score)
                else Ok (sleep_duration, PInt 0)
            end
          else Ok (sleep_duration, PInt 0)
        else
          let? seconds := py_get sleep_data "sleepTimeSeconds" (PInt 0) in
          let? sleep_duration := py_truediv seconds (PInt 3600) in
          let? sleep_score := py_get sleep_data "sleepScore" (PInt 0) in
          Ok (sleep_duration, sleep_score)
    | _ => Ok (PInt 0, PInt 0)
    end%result.

(** [steps_need_update(existing_steps, new_steps)]: the four comparisons
    joined by [or], evaluated left to right until one is true. *)
Definition steps_need_update (existing_steps new_steps : pyval) : result bool :=
  (let? existing_props := py_getitem existing_steps "properties" in
   let? p1 := py_getitem existing_props "Total Steps" in
   let? n1 := py_getitem p1 "number" in
   let? v1 := py_get new_steps "totalSteps" PNone in
   if py_ne n1 v1 then Ok true else
   let? p2 := py_getitem existing_props "Step Goal" in
   let? n2 := py_getitem p2 "number" in
   let? v2 := py_get new_steps "stepGoal" PNone in
   if py_ne n2 v2 then Ok true else
   let? p3 := py_getitem existing_props "Total Distance (km)" in
   let? n3 := py_getitem p3 "number" in
   let? v3 := py_get new_steps "totalDistance" PNone in
   if py_ne n3 v3 then Ok true else
   let? p4 := py_getitem existing_props "Activity Type" in
   let? t4 := py_getitem p4 "title" in
   Ok (py_ne t4 (PStr "Walking")))%result.

(** The title written by the script: [[{"text": {"content": "Walking"}}]]. *)
Definition walking_title : pyval :=
  PList [PDict [("text", PDict [("content", PStr "Walking")])]].

Definition number (v : pyval) : pyval := PDict [("number", v)].
Definition checkbox (b : bool) : pyval := PDict [("checkbox", PBool b)].
Definition date_start (v : pyval) : pyval :=
  PDict [("date", PDict [("start", v)])].

(** [round(total_distance / 1000, 2)]. *)
Definition distance_km (total_distance : pyval) : result pyval :=
  (let? km := py_truediv total_distance (PInt 1000) in py_round km 2)%result.

Section Script.

Variable srv : service.
Variable env : environ.
(** [date.today()], as an ordinal. *)
Variable today : Z.

(** The loop of [get_all_daily_steps] at a given [retry_count], from the
    days still to fetch and the list accumulated so far; [again] is the
    [return get_all_daily_steps(garmin, retry_count + 1)] of the handler. *)
Fixpoint collect (retry_count : nat) (again : M (list pyval))
    (days : list Z) (daily_steps : list pyval) {struct days}
    : M (list pyval) :=
  match days with
  | [] => ret daily_steps
  | d :: days' =>
      tried <- attempt (steps <- garmin_get_daily_steps srv d ;;
                        extended <- lift (py_iadd daily_steps steps) ;;
                        time_sleep (PFloat half) ;;
                        ret extended) ;;
      match tried with
      | Ok extended => collect retry_count again days' extended
      | Raise e =>
          if is_rate_limit e then
            time_sleep (PInt (retry_after retry_count)) ;;
            if Nat.ltb retry_count 3 then again
            else collect retry_count again days' daily_steps
          else collect retry_count again days' daily_steps
      end
  end.

(** [get_all_daily_steps(garmin, retry_count)], with the depth of the
    recursion as [fuel]. *)
Fixpoint get_all_daily_steps_rec (fuel : nat) (retry_count : nat)
    {struct fuel} : M (list pyval) :=
  collect retry_count
          match fuel with
          | S fuel' => get_all_daily_steps_rec fuel' (S retry_count)
          | O => raise RecursionError
          end
          (daterange today) [].

(** The recursion stops at [retry_count = 3]: [3 - retry_count] nested
    calls are enough. *)
Definition get_all_daily_steps (retry_count : nat) : M (list pyval) :=
  get_all_daily_steps_rec (3 - retry_count) retry_count.

(** [daily_steps_exist(client, database_id, activity_date)]. *)
Definition daily_steps_exist (database_id : option string)
    (activity_date : pyval) : M pyval :=
  results <- databases_query srv database_id
               (And [DateEquals "Date" activity_date;
                     TitleEquals "Activity Type" "Walking"]) ;;
  ret match results with
      | first :: _ => first
      | [] => PNone
      end.

(** [update_daily_steps(client, existing_steps, new_steps)]. *)
Definition update_daily_steps (existing_steps new_steps : pyval) : M unit :=
  total_distance <- lift (py_get new_steps "totalDistance" (PInt 0)) ;;
  total_steps <- lift (py_get new_steps "totalSteps" PNone) ;;
  step_goal <- lift (py_get new_steps "stepGoal" PNone) ;;
  km <- lift (distance_km total_distance) ;;
  let properties :=
    [("Activity Type", PDict [("title", walking_title)]);
     ("Total Steps", number total_steps);
     ("Step Goal", number step_goal);
     ("Total Distance (km)", number km)] in
  id <- lift (py_getitem existing_steps "id") ;;
  pages_update srv id properties.

(** [create_daily_steps(client, database_id, steps)]. *)
Definition create_daily_steps (database_id : option string) (steps : pyval)
    : M unit :=
  total_distance <- lift (py_get steps "totalDistance" (PInt 0)) ;;
  calendar_date <- lift (py_get steps "calendarDate" PNone) ;;
  total_steps <- lift (py_get steps "totalSteps" PNone) ;;
  step_goal <- lift (py_get steps "stepGoal" PNone) ;;
  km <- lift (distance_km total_distance) ;;
  let properties :=
    [("Activity Type", PDict [("title", walking_title)]);
     ("Date", date_start calendar_date);
     ("Total Steps", number total_steps);
     ("Step Goal", number step_goal);
     ("Total Distance (km)", number km)] in
  pages_create srv database_id properties.

(** [get_sleep_data(garmin, date, retry_count)], with the depth of the
    recursion as [fuel]. *)
Fixpoint get_sleep_data_rec (fuel : nat) (date : pyval) (retry_count : nat)
    {struct fuel} : M pyval :=
  try_except
    (sleep_data <- garmin_get_sleep_data srv date ;;
     time_sleep (PFloat half) ;;
     ret sleep_data)
    (fun e =>
       if is_rate_limit e then
         time_sleep (PInt (retry_after retry_count)) ;;
         if Nat.ltb retry_count 3 then
           match fuel with
           | S fuel' => get_sleep_data_rec fuel' date (S retry_count)
           | O => raise RecursionError
           end
         else ret PNone
       else ret PNone).

Definition get_sleep_data (date : pyval) (retry_count : nat) : M pyval :=
  get_sleep_data_rec (3 - retry_count) date retry_count.

(** [not wellness_database_id]. *)
Definition unset (id : option string) : bool :=
  match id with
  | Some s => String.eqb s ""
  | None => true
  end.

(** [sleep_duration >= 7 and sleep_score >= 85]. *)
Definition sleep_goal (sleep_duration sleep_score : pyval) : result bool :=
  (let? long_enough := py_ge sleep_duration (PInt 7) in
   if long_enough then py_ge sleep_score (PInt 85) else Ok false)%result.

Definition wellness_properties (steps_date : pyval)
    (steps_goal_met sleep_goal_met exercise_logged : bool) : dict :=
  [("Date", date_start steps_date);
   ("15000 Steps", checkbox steps_goal_met);
   ("😴7+ hrs Sleep, 85+ Score", checkbox sleep_goal_met);
   ("🏃🏾‍♂️ Excersice", checkbox exercise_logged)].

(** [update_wellness_database(client, wellness_database_id, steps, garmin)]. *)
Definition update_wellness_database (wellness_database_id : option string)
    (steps : pyval) : M unit :=
  if unset wellness_database_id then ret tt
  else
    steps_date <- lift (py_get steps "calendarDate" PNone) ;;
    total_steps <- lift (py_get steps "totalSteps" (PInt 0)) ;;
    step_goal <- lift (py_get steps "stepGoal" (PInt 10000)) ;;
    sleep_data <- get_sleep_data steps_date 0 ;;
    metrics <- lift (extract_sleep_metrics sleep_data) ;;
    let '(sleep_duration, sleep_score) := metrics in
    steps_goal_met <- lift (py_ge total_steps step_goal) ;;
    sleep_goal_met <- lift (sleep_goal sleep_duration sleep_score) ;;
    exercise_activities <-
      databases_query srv (NOTION_DB_ID env)
        (And [DateEquals "Date" steps_date;
              SelectDoesNotEqual "Activity Type" "Walking"]) ;;
    let exercise_logged := Nat.ltb 0 (List.length exercise_activities) in
    existing_entry <-
      databases_query srv wellness_database_id
        (Single (DateEquals "Date" steps_date)) ;;
    let properties :=
      wellness_properties steps_date steps_goal_met sleep_goal_met
                          exercise_logged in
    try_except
      match existing_entry with
      | first :: _ =>
          id <- lift (py_getitem first "id") ;;
          pages_update srv id properties
      | [] => pages_create srv wellness_database_id properties
      end
      (fun _ => ret tt).

(** The login of [main]: [true] when logged in, [false] where [main]
    returns early. *)
Definition login : M bool :=
  try_except
    (garmin_login srv ;; ret true)
    (fun e =>
       if is_rate_limit e then
         time_sleep (PInt 10) ;;
         try_except (garmin_login srv ;; ret true) (fun _ => ret false)
       else ret false).

(** The body of the loop of [main] for one record. *)
Definition process (steps : pyval) : M unit :=
  let database_id := NOTION_STEPS_DB_ID env in
  let wellness_database_id := NOTION_WELLNESS_DB_ID env in
  steps_date <- lift (py_get steps "calendarDate" PNone) ;;
  existing_steps <- daily_steps_exist database_id steps_date ;;
  (if py_truthy existing_steps then
     need <- lift (steps_need_update existing_steps steps) ;;
     if need then update_daily_steps existing_steps steps else ret tt
   else create_daily_steps database_id steps) ;;
  update_wellness_database wellness_database_id steps.

(** The part of [main] after the login: the collection, then the loop
    over the records. *)
Definition batch : M unit :=
  daily_steps <- get_all_daily_steps 0 ;;
  for_each daily_steps process.

(** [main()]. *)
Definition main : M unit :=
  logged_in <- login ;;
  if logged_in then batch else ret tt.

End Script.

End DailySteps.

(* ===================================================================== *)
(** * Properties *)
(* ===================================================================== *)

Import Py Remote DailySteps.

Open Scope string_scope.
Open Scope list_scope.
Open Scope py_scope.

(** ** Vocabulary: reading a trace, classifying replies *)

(** A request that writes to a table. *)
Definition is_write (ev : event) : bool :=
  match ev with
  | PagesCreate _ _ | PagesUpdate _ _ => true
  | _ => false
  end.

(** The create and update requests of a trace. *)
Definition writes (evs : list event) : list event := List.filter is_write evs.

(** The arguments of the [time.sleep] calls of a trace. *)
Fixpoint waits (evs : list event) : list pyval :=
  match evs with
  | [] => []
  | Sleep s :: evs' => s :: waits evs'
  | _ :: evs' => waits evs'
  end.

(** A login request. *)
Definition is_login (ev : event) : bool :=
  match ev with Login => true | _ => false end.

(** The number of logins of a trace. *)
Definition logins (evs : list event) : nat :=
  List.length (List.filter is_login evs).


(** A reply that is a rate-limit failure. *)
Definition rate_limited (r : reply) : Prop :=
  exists msg, r = Fails msg /\ is_rate_limit (RemoteError msg) = true.

(** [n] more remote calls made. *)
Fixpoint called_n (n : nat) (st : state) : state :=
  match n with
  | O => st
  | S n' => called_n n' (called st)
  end.

(** [emits P m]: every request made by [m], from any state, satisfies
    [P]. *)
Definition emits {A} (P : event -> Prop) (m : M A) : Prop :=
  forall st, Forall P (trace (m st)).

(** Requests other than a login, and other than a write. *)
Definition not_login (ev : event) : Prop := is_login ev = false.

Definition not_write (ev : event) : Prop := is_write ev = false.

(** [guarded v m]: from any state, either [m] makes no write request, or
    it returns [v]: nothing raised after a write request comes out. *)
Definition guarded {A} (v : A) (m : M A) : Prop :=
  forall st, writes (trace (m st)) = [] \/ res (m st) = Ok v.

(** The distance of a record: its [totalDistance] field, 0 when the field
    is missing. *)
Definition distance_of (record : dict) : pyval :=
  match dict_lookup "totalDistance" record with
  | Some v => v
  | None => PInt 0
  end.

(** The date stored in a row. *)
Definition stored_date (p : page) : option pyval := dict_lookup "Date" (props p).

(** A row of the activity table dated [date] whose category is not
    "Walking". *)
Definition exercise_on (activity_table : option string) (date : pyval)
    (p : page) : bool :=
  in_table activity_table p &&
  forallb (fun c => holds c p)
          [DateEquals "Date" date; SelectDoesNotEqual "Activity Type" "Walking"].

(** What the reply to one day's fetch adds to the list: the elements of
    the value returned, nothing when the fetch fails or when the value is
    not iterable. *)
Definition contribution (r : reply) : list pyval :=
  match r with
  | Returns v => match py_iadd [] v with Ok l => l | Raise _ => [] end
  | Fails _ => []
  end.

(** The reply makes the collector start over: a rate-limit failure while
    the counter is below 3. *)
Definition restarts (r : reply) (retry_count : nat) : bool :=
  match r with
  | Fails msg => is_rate_limit (RemoteError msg) && Nat.ltb retry_count 3
  | Returns _ => false
  end.


(** The requests of a trace that concern the date [date]. *)
Definition queries_for (date : string) (evs : list event) : list event :=
  List.filter (fun ev =>
                 match ev with
                 | Query _ (And (DateEquals _ (PStr d) :: _))
                 | Query _ (Single (DateEquals _ (PStr d))) => String.eqb d date
                 | _ => false
                 end) evs.


Definition is_steps_fetch (ev : event) : bool :=
  match ev with GetDailySteps _ => true | _ => false end.

(** The number of requests of a trace that satisfy [f]. *)
Definition count_requests (f : event -> bool) (evs : list event) : nat :=
  List.length (List.filter f evs).

(** What follows the fetch of one day in the loop of
    [get_all_daily_steps]: the pause after a success, the wait after a
    rate-limit failure, nothing after another failure or after a reply
    that cannot be added to the list. *)
Definition step_pause (r : reply) (retry_count : nat) : list event :=
  match r with
  | Returns v =>
      match py_iadd [] v with
      | Ok _ => [Sleep (PFloat half)]
      | Raise _ => []
      end
  | Fails msg =>
      if is_rate_limit (RemoteError msg)
      then [Sleep (PInt (retry_after retry_count))]
      else []
  end.

(** The request leaves the sleep data alone and, when it addresses a
    table, addresses [database_id]. *)
Definition touches_only (database_id : option string) (ev : event) : Prop :=
  match ev with
  | GetSleepData _ => False
  | Query db _ | PagesCreate db _ => db = database_id
  | _ => True
  end.

(** The query of [daily_steps_exist]. *)
Definition walking_on (date : pyval) : filter :=
  And [DateEquals "Date" date; TitleEquals "Activity Type" "Walking"].

(** The properties [create_daily_steps] sends. *)
Definition created_properties (calendar_date total_steps step_goal km : pyval)
    : dict :=
  [("Activity Type", PDict [("title", walking_title)]);
   ("Date", date_start calendar_date);
   ("Total Steps", number total_steps);
   ("Step Goal", number step_goal);
   ("Total Distance (km)", number km)].

(** ** The floats of the examples *)

(** The floats [7.0] and [7.5] of the reference cases. *)
Definition seven : float := float_of_Z 7%Z.
Definition seven_and_a_half : float := float_of_ratio false 15%Z 2%Z.

(** The float [6.4]. *)
Definition six_point_four : float := float_of_ratio false 64 10.


(** ** Scenarios: concrete services, environments and runs *)

(** A service whose every reply is a rate-limit failure. *)
Definition always_rate_limited : service := {|
  login_reply := fun _ => Some "429 Client Error: Too Many Requests";
  steps_reply := fun _ _ => Fails "429 Client Error: Too Many Requests";
  sleep_reply := fun _ _ => Fails "429 Client Error: Too Many Requests";
  table_fault := fun _ => None
|}.

(** A service that refuses the login for another reason than a rate
    limit. *)
Definition login_refused : service := {|
  login_reply := fun _ => Some "401 Unauthorized";
  steps_reply := fun _ _ => Returns (PList []);
  sleep_reply := fun _ _ => Returns PNone;
  table_fault := fun _ => None
|}.

(** Only the steps table is configured. *)
Definition steps_table_only : environ := {|
  NOTION_STEPS_DB_ID := Some "steps";
  NOTION_WELLNESS_DB_ID := None;
  NOTION_DB_ID := None
|}.

(** The three tables are configured. *)
Definition all_tables : environ := {|
  NOTION_STEPS_DB_ID := Some "steps";
  NOTION_WELLNESS_DB_ID := Some "wellness";
  NOTION_DB_ID := Some "activities"
|}.

(** One record of the fitness service. *)
Definition walk : dict :=
  [("calendarDate", PStr "2024-01-05"); ("totalSteps", PInt 8000);
   ("stepGoal", PInt 10000); ("totalDistance", PInt 6400)].

(** A service that always answers, with that record for one day. *)
Definition one_walk : service := {|
  login_reply := fun _ => None;
  steps_reply := fun _ d => if Z.eqb d 738890 then Returns (PList [PDict walk])
                            else Returns (PList []);
  sleep_reply := fun _ _ => Returns PNone;
  table_fault := fun _ => None
|}.

(** The service of [one_walk], with seven hours of sleep scored 90 for
    every day. *)
Definition slept_well : service := {|
  login_reply := fun _ => None;
  steps_reply := fun _ d => if Z.eqb d 738890 then Returns (PList [PDict walk])
                            else Returns (PList []);
  sleep_reply := fun _ _ =>
    Returns (PList [PDict [("sleepTimeSeconds", PInt 25200);
                           ("sleepScore", PInt 90)]]);
  table_fault := fun _ => None
|}.

(** A run logged in the activity table. *)
Definition a_run : page := {|
  page_id := PStr "run-1";
  parent := Some "activities";
  props := [("Date", date_start (PStr "2024-01-05"));
            ("Activity Type", PDict [("select", PDict [("name", PStr "Running")])])]
|}.

(** A burst of rate limiting: the first call is answered with one record,
    the next four calls are refused, and later calls return no record. *)
Definition burst : service := {|
  login_reply := fun _ => None;
  steps_reply := fun n _ =>
    if Nat.eqb n 0 then Returns (PList [PDict walk])
    else if Nat.leb n 4 then Fails "429 Client Error: Too Many Requests"
    else Returns (PList []);
  sleep_reply := fun _ _ => Returns PNone;
  table_fault := fun _ => None
|}.

(** One day is always refused on a rate limit, the next one has a record. *)
Definition one_bad_day : service := {|
  login_reply := fun _ => None;
  steps_reply := fun _ d =>
    if Z.eqb d 738889 then Fails "429 Client Error: Too Many Requests"
    else if Z.eqb d 738890 then Returns (PList [PDict walk])
    else Returns (PList []);
  sleep_reply := fun _ _ => Returns PNone;
  table_fault := fun _ => None
|}.

(** The row that [create_daily_steps] writes for the record [walk], as a
    query returns it. *)
Definition walk_row : pyval :=
  PDict [("id", PStr "page-0");
         ("properties",
          PDict [("Activity Type", PDict [("title", walking_title)]);
                 ("Date", date_start (PStr "2024-01-05"));
                 ("Total Steps", number (PInt 8000));
                 ("Step Goal", number (PInt 10000));
                 ("Total Distance (km)", number (PFloat six_point_four))])].

(** The batch run twice in a row on [one_walk], from an empty table. *)
Definition first_run : outcome unit := main one_walk steps_table_only 738892%Z (initial []).
Definition second_run : outcome unit :=
  main one_walk steps_table_only 738892%Z (after first_run).

(** Two days with a record each. *)
Definition next_walk : dict :=
  [("calendarDate", PStr "2024-01-06"); ("totalSteps", PInt 12000);
   ("stepGoal", PInt 10000); ("totalDistance", PInt 9100)].

(** The table service fails once, on the 13th remote call of the run: the
    query for exercise activities of the first record. *)
Definition query_fails : service := {|
  login_reply := fun _ => None;
  steps_reply := fun _ d =>
    if Z.eqb d 738890 then Returns (PList [PDict walk])
    else if Z.eqb d 738891 then Returns (PList [PDict next_walk])
    else Returns (PList []);
  sleep_reply := fun _ _ => Returns PNone;
  table_fault := fun n => if Nat.eqb n 12 then Some "502 Bad Gateway" else None
|}.

(** The service of [one_walk], with the table service failing on the
    remote call number [n] (counted from 0). *)
Definition table_fails_at (n : nat) : service := {|
  login_reply := fun _ => None;
  steps_reply := fun _ d => if Z.eqb d 738890 then Returns (PList [PDict walk])
                            else Returns (PList []);
  sleep_reply := fun _ _ => Returns PNone;
  table_fault := fun k => if Nat.eqb k n then Some "502 Bad Gateway" else None
|}.

(** The batch on [query_fails], from empty tables. *)
Definition failed_run : outcome unit :=
  main query_fails all_tables 738892%Z (initial []).

(** The service of [one_walk], with the first login refused on a rate
    limit. *)
Definition login_retried : service := {|
  login_reply := fun n => if Nat.eqb n 0
                          then Some "429 Client Error: Too Many Requests"
                          else None;
  steps_reply := fun _ d => if Z.eqb d 738890 then Returns (PList [PDict walk])
                            else Returns (PList []);
  sleep_reply := fun _ _ => Returns PNone;
  table_fault := fun _ => None
|}.

(** ** The sleep-metrics extractor *)

Lemma seven_is_7 : py_eq (PFloat seven) (PInt 7%Z) = true.
Proof. reflexivity. Qed.

Lemma seven_and_a_half_doubled :
  SFadd prec emax seven_and_a_half seven_and_a_half = float_of_Z 15%Z.
Proof. vm_compute. reflexivity. Qed.

(** C3.  The four reference cases of the extractor: [None] and the empty
    list give [(0, 0)]; a one-entry list with 25200 seconds and score 90
    gives [(7.0, 90)]; the nested object with 27000 seconds and overall
    value ["88"] gives [(7.5, 88)]. *)
Theorem extract_sleep_metrics_reference_cases :
  extract_sleep_metrics PNone = Ok (PInt 0, PInt 0) /\
  extract_sleep_metrics (PList []) = Ok (PInt 0, PInt 0) /\
  extract_sleep_metrics
    (PList [PDict [("sleepTimeSeconds", PInt 25200); ("sleepScore", PInt 90)]])
  = Ok (PFloat seven, PInt 90) /\
  extract_sleep_metrics
    (PDict [("dailySleepDTO",
             PDict [("sleepTimeSeconds", PInt 27000);
                    ("sleepScores",
                     PDict [("overall", PDict [("value", PStr "88")])])])])
  = Ok (PFloat seven_and_a_half, PInt 88).
Proof. repeat split; vm_compute; reflexivity. Qed.

(** C4.  The extractor raises on inputs of each of the three shapes: a
    duration field that is present but null ([None]) makes the division by
    3600 raise [TypeError], in the sequence shape, in the nested shape and
    in the plain shape; an overall score that is not a numeral makes [int]
    raise [ValueError]. *)
Theorem extract_sleep_metrics_raises :
  extract_sleep_metrics (PList [PDict [("sleepTimeSeconds", PNone)]])
  = Raise TypeError /\
  extract_sleep_metrics
    (PDict [("dailySleepDTO", PDict [("sleepTimeSeconds", PNone)])])
  = Raise TypeError /\
  extract_sleep_metrics (PDict [("sleepTimeSeconds", PNone)])
  = Raise TypeError /\
  extract_sleep_metrics
    (PDict [("dailySleepDTO",
             PDict [("sleepTimeSeconds", PInt 27000);
                    ("sleepScores", PDict [("overall", PStr "n/a")])])])
  = Raise ValueError.
Proof. repeat split; vm_compute; reflexivity. Qed.

(** ** Retrying on rate limits *)

Lemma calls_called_n n st : calls (called_n n st) = n + calls st.
Proof.
  revert st. induction n as [|n IH]; intros st; simpl; [reflexivity|].
  rewrite IH. simpl. lia.
Qed.

Lemma pages_called_n n st : pages (called_n n st) = pages st.
Proof.
  revert st. induction n as [|n IH]; intros st; simpl; [reflexivity|].
  rewrite IH. reflexivity.
Qed.

#[local] Arguments is_rate_limit : simpl never.
#[local] Arguments retry_after : simpl never.

Section Retry.

Variable srv : service.

(** One rate-limited attempt of [get_sleep_data]: the fetch, the wait, and
    then either the nested call or [None]. *)
Lemma get_sleep_data_rec_rate_limited fuel date rc st :
  rate_limited (sleep_reply srv (calls st) date) ->
  get_sleep_data_rec srv fuel date rc st =
  let next :=
    (if Nat.ltb rc 3
     then match fuel with
          | S fuel' => get_sleep_data_rec srv fuel' date (S rc)
          | O => raise RecursionError
          end
     else ret PNone) (called st) in
  Out (res next) (after next)
      (GetSleepData date :: Sleep (PInt (retry_after rc)) :: trace next).
Proof.
  intros (msg & Hr & Hl).
  destruct fuel; simpl;
    unfold try_except, bind, attempt, garmin_get_sleep_data, garmin_call;
    simpl; rewrite Hr; simpl; rewrite Hl; simpl.
  all: destruct (Nat.ltb rc 3); reflexivity.
Qed.

(** One rate-limited attempt inside the loop of [get_all_daily_steps]. *)
Lemma collect_rate_limited rc again d days acc st :
  rate_limited (steps_reply srv (calls st) d) ->
  collect srv rc again (d :: days) acc st =
  let next :=
    (if Nat.ltb rc 3 then again else collect srv rc again days acc)
      (called st) in
  Out (res next) (after next)
      (GetDailySteps d :: Sleep (PInt (retry_after rc)) :: trace next).
Proof.
  intros (msg & Hr & Hl).
  simpl; unfold bind, attempt, garmin_get_daily_steps, garmin_call;
    simpl; rewrite Hr; simpl; rewrite Hl; simpl.
  destruct (Nat.ltb rc 3); reflexivity.
Qed.

(** Once the counter has reached 3 the loop no longer restarts: with every
    fetch rate limited it goes through the remaining days, waiting after
    each, and returns what it had accumulated. *)
Lemma collect_exhausted rc again days acc st :
  3 <= rc ->
  (forall n d, rate_limited (steps_reply srv n d)) ->
  collect srv rc again days acc st =
  Out (Ok acc) (called_n (List.length days) st)
      (flat_map (fun d => [GetDailySteps d; Sleep (PInt (retry_after rc))])
                days).
Proof.
  intros Hrc Hall. revert st.
  induction days as [|d days IH]; intros st; [reflexivity|].
  rewrite collect_rate_limited by apply Hall.
  destruct (Nat.ltb_spec rc 3) as [Hlt|_]; [lia|].
  cbv zeta. rewrite IH. reflexivity.
Qed.

End Retry.

Lemma daterange_eq today :
  daterange today =
  [today - 7; today - 6; today - 5; today - 4;
   today - 3; today - 2; today - 1; today]%Z.
Proof.
  unfold daterange.
  replace (today - (today - 7) + 1)%Z with 8%Z by lia.
  change (Z.to_nat 8) with 8. cbn [seq map].
  repeat (apply f_equal2; [lia|]). reflexivity.
Qed.

(** A rate-limited first day, below the ceiling, restarts the collection. *)
Lemma get_all_daily_steps_rec_restart srv today fuel rc st :
  rc < 3 ->
  rate_limited (steps_reply srv (calls st) (today - 7)%Z) ->
  get_all_daily_steps_rec srv today (S fuel) rc st =
  let next := get_all_daily_steps_rec srv today fuel (S rc) (called st) in
  Out (res next) (after next)
      (GetDailySteps (today - 7) :: Sleep (PInt (retry_after rc))
         :: trace next).
Proof.
  intros Hrc Hr. cbn [get_all_daily_steps_rec].
  rewrite (daterange_eq today) at 1.
  rewrite collect_rate_limited by exact Hr.
  destruct (Nat.ltb_spec rc 3) as [_|Hge]; [reflexivity|lia].
Qed.

(** C5.  The wait before a retry is [10 * 2 ^ retry_count] seconds: 10, 20,
    40 and 80 for the counters 0 to 3.  With the sleep fetch rate limited
    at every attempt, [get_sleep_data] makes four attempts, waits 10, 20,
    40 and 80 seconds and returns [None].  With the steps fetch rate
    limited at every attempt, [get_all_daily_steps] restarts three times
    after waits of 10, 20 and 40 seconds, then goes through the eight days
    with a wait of 80 seconds after each, and returns the accumulated
    list, which is empty.  Neither raises. *)
Theorem rate_limit_backoff_and_degraded_result :
  map retry_after [0; 1; 2; 3] = [10; 20; 40; 80]%Z /\
  (forall srv date st,
     (forall n, rate_limited (sleep_reply srv n date)) ->
     let o := get_sleep_data srv date 0 st in
     res o = Ok PNone /\
     trace o = [GetSleepData date; Sleep (PInt 10);
                GetSleepData date; Sleep (PInt 20);
                GetSleepData date; Sleep (PInt 40);
                GetSleepData date; Sleep (PInt 80)]) /\
  (forall srv today st,
     (forall n d, rate_limited (steps_reply srv n d)) ->
     let o := get_all_daily_steps srv today 0 st in
     res o = Ok [] /\
     trace o =
       [GetDailySteps (today - 7); Sleep (PInt 10);
        GetDailySteps (today - 7); Sleep (PInt 20);
        GetDailySteps (today - 7); Sleep (PInt 40)] ++
       flat_map (fun d => [GetDailySteps d; Sleep (PInt 80)])
                (daterange today)).
Proof.
  split; [reflexivity|]. split.
  - intros srv date st Hall. unfold get_sleep_data.
    cbn [Nat.sub].
    do 4 (rewrite get_sleep_data_rec_rate_limited by apply Hall;
          cbn [Nat.ltb Nat.leb]).
    cbv zeta. split; reflexivity.
  - intros srv today st Hall. unfold get_all_daily_steps.
    cbn [Nat.sub].
    do 3 (rewrite get_all_daily_steps_rec_restart by (auto; apply Hall)).
    cbn [get_all_daily_steps_rec].
    rewrite collect_exhausted by (auto; apply Hall).
    cbv zeta. split; reflexivity.
Qed.

Lemma rate_limit_backoff_and_degraded_result_witness :
  res (get_sleep_data always_rate_limited (PStr "2024-01-05") 0 (initial []))
  = Ok PNone /\
  res (get_all_daily_steps always_rate_limited 738890%Z 0 (initial []))
  = Ok [].
Proof.
  destruct rate_limit_backoff_and_degraded_result as (_ & Hsleep & Hsteps).
  split.
  - apply (Hsleep always_rate_limited (PStr "2024-01-05") (initial [])).
    intros n. exists "429 Client Error: Too Many Requests".
    split; reflexivity.
  - apply (Hsteps always_rate_limited 738890%Z (initial [])).
    intros n d. exists "429 Client Error: Too Many Requests".
    split; reflexivity.
Defined.

(** ** What a computation may request *)

Section Emits.

Variable P : event -> Prop.

Lemma emits_ret {A} (a : A) : emits P (ret a).
Proof. intros st. constructor. Qed.

Lemma emits_raise {A} (e : exn) : emits P (@raise A e).
Proof. intros st. constructor. Qed.

Lemma emits_lift {A} (r : result A) : emits P (lift r).
Proof. intros st. constructor. Qed.

Lemma emits_bind {A B} (m : M A) (k : A -> M B) :
  emits P m -> (forall a, emits P (k a)) -> emits P (bind m k).
Proof.
  intros Hm Hk st. unfold bind. specialize (Hm st).
  destruct (m st) as [[a|e] st' tr]; simpl in *; [|exact Hm].
  apply Forall_app. split; [exact Hm|apply Hk].
Qed.

Lemma emits_attempt {A} (m : M A) : emits P m -> emits P (attempt m).
Proof. intros Hm st. apply Hm. Qed.

Lemma emits_try_except {A} (m : M A) (h : exn -> M A) :
  emits P m -> (forall e, emits P (h e)) -> emits P (try_except m h).
Proof.
  intros Hm Hh. unfold try_except.
  apply emits_bind; [apply emits_attempt, Hm|].
  intros [a|e]; [apply emits_ret|apply Hh].
Qed.

Lemma emits_time_sleep s : P (Sleep s) -> emits P (time_sleep s).
Proof. intros H st. repeat constructor. exact H. Qed.

Lemma emits_garmin_call {A} ev (r : state -> result A) :
  P ev -> emits P (garmin_call ev r).
Proof. intros H st. repeat constructor. exact H. Qed.

Lemma emits_table_call {A} ev (r : state -> result A * list page) :
  P ev -> emits P (table_call ev r).
Proof.
  intros H st. unfold table_call. destruct (r st). repeat constructor. exact H.
Qed.

Lemma emits_for_each {A} (xs : list A) (body : A -> M unit) :
  (forall x, emits P (body x)) -> emits P (for_each xs body).
Proof.
  intros Hb. induction xs as [|x xs IH]; simpl.
  - apply emits_ret.
  - apply emits_bind; [apply Hb|intros _; exact IH].
Qed.

End Emits.

Create HintDb emits discriminated.
#[export] Hint Resolve emits_ret emits_raise emits_lift
  emits_time_sleep emits_garmin_call emits_table_call : emits.
#[export] Hint Unfold not_write : emits.

(** Splits a computation along its binds, handlers and case analyses, down
    to the single requests. *)
Ltac emits_step :=
  match goal with
  | |- emits _ (bind _ _) => apply emits_bind; [|intros ?]
  | |- emits _ (attempt _) => apply emits_attempt
  | |- emits _ (try_except _ _) => apply emits_try_except; [|intros ?]
  | |- emits _ (for_each _ _) => apply emits_for_each; intros ?
  | |- emits _ (if ?b then _ else _) => destruct b
  | |- emits _ (match ?x with _ => _ end) => destruct x
  | |- emits _ _ => solve [auto with emits]
  end.

Section Requests.

Variable srv : service.
Variable env : environ.
Variable today : Z.
Variable P : event -> Prop.

Hypothesis P_sleep : forall s, P (Sleep s).
Hypothesis P_steps : forall d, P (GetDailySteps d).
Hypothesis P_sleep_data : forall d, P (GetSleepData d).
Hypothesis P_query : forall db f, P (Query db f).
Hypothesis P_create : forall db props, P (PagesCreate db props).
Hypothesis P_update : forall id props, P (PagesUpdate id props).

Lemma emits_collect rc again days acc :
  emits P again -> emits P (collect srv rc again days acc).
Proof.
  intros Hagain. revert acc.
  induction days as [|d days IH]; intros acc; simpl.
  - apply emits_ret.
  - unfold garmin_get_daily_steps.
    repeat emits_step; auto with emits.
Qed.

Lemma emits_get_all_daily_steps_rec fuel rc :
  emits P (get_all_daily_steps_rec srv today fuel rc).
Proof.
  revert rc. induction fuel as [|fuel IH]; intros rc; simpl;
    apply emits_collect; auto with emits.
Qed.

Lemma emits_get_sleep_data_rec fuel date rc :
  emits P (get_sleep_data_rec srv fuel date rc).
Proof.
  revert rc. induction fuel as [|fuel IH]; intros rc; simpl;
    unfold garmin_get_sleep_data; repeat emits_step; auto with emits.
Qed.

Lemma emits_update_wellness_database wid steps :
  emits P (update_wellness_database srv env wid steps).
Proof.
  unfold update_wellness_database, get_sleep_data, databases_query,
    pages_update, pages_create.
  repeat emits_step; auto using emits_get_sleep_data_rec with emits.
Qed.

Lemma emits_process steps : emits P (process srv env steps).
Proof.
  unfold process, daily_steps_exist, update_daily_steps, create_daily_steps,
    databases_query, pages_update, pages_create.
  repeat emits_step;
    auto using emits_update_wellness_database with emits.
Qed.

(** Everything [main] does after the login. *)
Lemma emits_batch : emits P (batch srv env today).
Proof.
  unfold batch. apply emits_bind.
  - apply emits_get_all_daily_steps_rec.
  - intros ds. apply emits_for_each. intros x. apply emits_process.
Qed.

End Requests.

(** ** Login *)

Lemma logins_none evs : Forall not_login evs -> logins evs = 0.
Proof.
  unfold logins. induction 1 as [|ev evs Hev _ IH]; [reflexivity|].
  simpl. rewrite Hev. exact IH.
Qed.

Lemma logins_app evs evs' : logins (evs ++ evs') = logins evs + logins evs'.
Proof. unfold logins. rewrite filter_app, length_app. reflexivity. Qed.

(** After the login, [main] never logs in again. *)
Lemma batch_never_logs_in srv env today st :
  logins (trace (batch srv env today st)) = 0.
Proof.
  apply logins_none.
  apply emits_batch; intros; reflexivity.
Qed.

(** The three ways the login of [main] can go. *)
Lemma login_run srv st :
  login srv st =
  match login_reply srv (calls st) with
  | None => Out (Ok true) (called st) [Login]
  | Some msg =>
      if is_rate_limit (RemoteError msg) then
        Out (Ok match login_reply srv (S (calls st)) with
                | None => true
                | Some _ => false
                end)
            (called (called st)) [Login; Sleep (PInt 10); Login]
      else Out (Ok false) (called st) [Login]
  end.
Proof.
  unfold login, try_except, bind, attempt, garmin_login, garmin_call.
  simpl. destruct (login_reply srv (calls st)) as [msg|]; simpl; [|reflexivity].
  destruct (is_rate_limit (RemoteError msg)); simpl; [|reflexivity].
  destruct (login_reply srv (S (calls st))); reflexivity.
Qed.

(** C9.  Login failure is fatal.  In every run [main] logs in at most
    twice, and a second time only after a first failure whose message
    carries a rate-limit marker.  When the first login fails with another
    error, or fails on a rate limit and the retry fails too, [main] returns
    having made no request but the login (and the 10-second wait and the
    retry): no step is fetched, no table is queried or written, and the
    rows are as they were. *)
Theorem login_failure_is_fatal :
  (forall srv env today st,
     let o := main srv env today st in
     logins (trace o) <= 2 /\
     (logins (trace o) = 2 ->
      exists msg, login_reply srv (calls st) = Some msg /\
                  is_rate_limit (RemoteError msg) = true)) /\
  (forall srv env today st msg,
     login_reply srv (calls st) = Some msg ->
     is_rate_limit (RemoteError msg) = false \/
     (exists msg2, login_reply srv (S (calls st)) = Some msg2) ->
     let o := main srv env today st in
     res o = Ok tt /\
     pages (after o) = pages st /\
     trace o = if is_rate_limit (RemoteError msg)
               then [Login; Sleep (PInt 10); Login]
               else [Login]).
Proof.
  split.
  - intros srv env today st. cbv zeta. unfold main, bind.
    rewrite login_run.
    destruct (login_reply srv (calls st)) as [msg|] eqn:Hfirst.
    + destruct (is_rate_limit (RemoteError msg)) eqn:Hlimit.
      * cbn [res after trace].
        assert (Hmsg : exists m, Some msg = Some m /\
                                 is_rate_limit (RemoteError m) = true)
          by (exists msg; split; [reflexivity|exact Hlimit]).
        destruct (login_reply srv (S (calls st))); cbn [res after trace].
        -- split; [unfold logins; simpl; lia|]. intros _. exact Hmsg.
        -- rewrite logins_app, batch_never_logs_in.
           split; [unfold logins; simpl; lia|]. intros _. exact Hmsg.
      * cbn [res after trace]. split; [unfold logins; simpl; lia|]. intros H; discriminate H.
    + cbn [res after trace]. rewrite logins_app, batch_never_logs_in.
      split; [unfold logins; simpl; lia|]. intros H; discriminate H.
  - intros srv env today st msg Hfirst Hfail. cbv zeta.
    unfold main, bind. rewrite login_run, Hfirst.
    destruct (is_rate_limit (RemoteError msg)) eqn:Hlimit.
    + destruct Hfail as [Hno|(msg2 & Hsecond)]; [discriminate Hno|].
      rewrite Hsecond. cbn. repeat split.
    + cbn. repeat split.
Qed.

Lemma login_failure_is_fatal_witness :
  trace (main login_refused steps_table_only 738890%Z (initial [])) = [Login] /\
  trace (main always_rate_limited steps_table_only 738890%Z (initial []))
  = [Login; Sleep (PInt 10); Login].
Proof.
  destruct login_failure_is_fatal as (_ & Hfatal).
  split.
  - apply (Hfatal login_refused steps_table_only 738890%Z (initial []) "401 Unauthorized").
    + reflexivity.
    + left. reflexivity.
  - apply (Hfatal always_rate_limited steps_table_only 738890%Z (initial [])
                  "429 Client Error: Too Many Requests").
    + reflexivity.
    + right. exists "429 Client Error: Too Many Requests". reflexivity.
Defined.

(** ** The steps table *)

#[local] Arguments py_truediv : simpl never.
#[local] Arguments py_round : simpl never.

(** C2.  Whenever [round(d / 1000, 2)] has a value [km], for [d] the
    [totalDistance] of the record (0 when missing), creating the row sends
    a single request, whose "Total Distance (km)" is the number [km], and
    so does updating a row.  Nothing else reaches the stored distance. *)
Theorem stored_distance_is_rounded_kilometres srv record q km :
  py_truediv (distance_of record) (PInt 1000) = Ok q ->
  py_round q 2 = Ok km ->
  (forall database_id st,
     exists properties,
       trace (create_daily_steps srv database_id (PDict record) st)
       = [PagesCreate database_id properties] /\
       dict_lookup "Total Distance (km)" properties = Some (number km)) /\
  (forall existing_steps id st,
     py_getitem existing_steps "id" = Ok id ->
     exists properties,
       trace (update_daily_steps srv existing_steps (PDict record) st)
       = [PagesUpdate id properties] /\
       dict_lookup "Total Distance (km)" properties = Some (number km)).
Proof.
  intros Hq Hkm. split.
  - intros database_id st. eexists.
    unfold create_daily_steps, bind, lift, distance_km, rbind, pages_create,
      table_call.
    cbn [py_get res after trace]. fold (distance_of record).
    rewrite Hq, Hkm. cbn [res after trace].
    destruct (table_fault srv (calls st)); cbn [res after trace app];
      (split; [reflexivity|vm_compute; reflexivity]).
  - intros existing_steps id st Hid. eexists.
    unfold update_daily_steps, bind, lift, distance_km, rbind, pages_update,
      table_call.
    cbn [py_get res after trace]. fold (distance_of record).
    rewrite Hq, Hkm. cbn [res after trace]. rewrite Hid.
    cbn [res after trace].
    destruct (table_fault srv (calls st)); cbn [res after trace app];
      [|destruct (existsb (has_id id) (pages st))];
      (split; [reflexivity|vm_compute; reflexivity]).
Qed.

Lemma stored_distance_is_rounded_kilometres_witness :
  exists properties,
    trace (create_daily_steps one_walk (Some "steps") (PDict walk) (initial []))
    = [PagesCreate (Some "steps") properties] /\
    dict_lookup "Total Distance (km)" properties
    = Some (number (PFloat six_point_four)).
Proof.
  assert (Hq : py_truediv (distance_of walk) (PInt 1000)
               = Ok (PFloat six_point_four)) by (vm_compute; reflexivity).
  assert (Hkm : py_round (PFloat six_point_four) 2
                = Ok (PFloat six_point_four)) by (vm_compute; reflexivity).
  destruct (stored_distance_is_rounded_kilometres one_walk walk Hq Hkm)
    as [Hcreate _].
  exact (Hcreate (Some "steps") (initial [])).
Defined.

(** Rounding at work: 1234 m is stored as 1.23 km, 1235 m as 1.24 km (the
    double nearest to 1.235 lies above it), and a record without distance
    as 0.0 km. *)
Example distance_km_examples :
  distance_km (PInt 1234) = Ok (PFloat (float_of_ratio false 123 100)) /\
  distance_km (PInt 1235) = Ok (PFloat (float_of_ratio false 124 100)) /\
  distance_km (distance_of []) = Ok (PFloat (S754_zero false)).
Proof. repeat split; vm_compute; reflexivity. Qed.

(** *** Updating a row *)

Lemma dict_lookup_dict_set_other k k' v d :
  k <> k' -> dict_lookup k (dict_set k' v d) = dict_lookup k d.
Proof.
  intros Hk. induction d as [|[k0 v0] d IH].
  - cbn [dict_set dict_lookup].
    destruct (String.eqb_spec k k'); [contradiction|reflexivity].
  - cbn [dict_set]. destruct (String.eqb_spec k' k0) as [->|Hk0].
    + cbn [dict_lookup].
      destruct (String.eqb_spec k k0); [contradiction|reflexivity].
    + cbn [dict_lookup]. destruct (String.eqb k k0); [reflexivity|exact IH].
Qed.

Lemma dict_lookup_patch_other k new old :
  ~ In k (map fst new) -> dict_lookup k (patch old new) = dict_lookup k old.
Proof.
  unfold patch. revert old.
  induction new as [|[k' v] new IH]; intros old Hk; [reflexivity|].
  cbn [fold_left fst snd]. rewrite IH.
  - apply dict_lookup_dict_set_other. intros ->. apply Hk. left. reflexivity.
  - intros Hin. apply Hk. right. exact Hin.
Qed.

Lemma stored_date_patch_page id new p :
  ~ In "Date" (map fst new) -> stored_date (patch_page id new p) = stored_date p.
Proof.
  intros Hk. unfold patch_page, stored_date.
  destruct (has_id id p); [|reflexivity].
  cbn [props]. apply dict_lookup_patch_other, Hk.
Qed.

(** C10.  Every request made by [update_daily_steps] is an update whose
    properties are exactly "Activity Type", "Total Steps", "Step Goal" and
    "Total Distance (km)"; "Date" is not among them, and the date stored in
    each row of the table is the same after the call as before. *)
Theorem update_leaves_date_unchanged srv existing_steps new_steps st :
  let o := update_daily_steps srv existing_steps new_steps st in
  Forall (fun ev => exists id properties,
            ev = PagesUpdate id properties /\
            map fst properties =
            ["Activity Type"; "Total Steps"; "Step Goal";
             "Total Distance (km)"])
         (trace o) /\
  map stored_date (pages (after o)) = map stored_date (pages st).
Proof.
  cbv zeta.
  unfold update_daily_steps, bind, lift, pages_update, table_call.
  destruct new_steps; cbn [py_get res after trace];
    try (split; [constructor|reflexivity]).
  destruct (distance_km _) as [km|e]; cbn [res after trace];
    [|split; [constructor|reflexivity]].
  destruct (py_getitem existing_steps "id") as [id|e]; cbn [res after trace];
    [|split; [constructor|reflexivity]].
  assert (Hkeep : forall ps : list page,
            map stored_date
                (map (patch_page id
                   [("Activity Type", PDict [("title", walking_title)]);
                    ("Total Steps",
                     number match dict_lookup "totalSteps" d with
                            | Some v => v | None => PNone end);
                    ("Step Goal",
                     number match dict_lookup "stepGoal" d with
                            | Some v => v | None => PNone end);
                    ("Total Distance (km)", number km)]) ps)
            = map stored_date ps).
  { intros ps. rewrite map_map. apply map_ext. intros p.
    apply stored_date_patch_page. cbn [map fst].
    intros [H|[H|[H|[H|[]]]]]; discriminate H. }
  destruct (table_fault srv (calls st)); cbn [res after trace app pages with_pages].
  - split; [|reflexivity]. repeat constructor. eexists _, _. split; reflexivity.
  - destruct (existsb (has_id id) (pages st));
      cbn [res after trace app pages with_pages].
    + split; [|apply Hkeep]. repeat constructor. eexists _, _. split; reflexivity.
    + split; [|reflexivity]. repeat constructor. eexists _, _. split; reflexivity.
Qed.

(** ** The wellness table *)

(** A request made by [bind m k] is made by [m], or by [k] on the value
    [m] returned. *)
Lemma in_trace_bind {A B} (m : M A) (k : A -> M B) st ev :
  In ev (trace (bind m k st)) ->
  In ev (trace (m st)) \/
  exists a, res (m st) = Ok a /\ In ev (trace (k a (after (m st)))).
Proof.
  unfold bind. destruct (m st) as [[a|e] st' tr]; cbn [res after trace].
  - intros H. apply in_app_or in H. destruct H as [H|H]; [left; exact H|].
    right. exists a. split; [reflexivity|exact H].
  - intros H. left. exact H.
Qed.

Lemma not_write_in {A} (m : M A) st ev :
  emits not_write m -> In ev (trace (m st)) -> is_write ev = true -> False.
Proof.
  intros Hm Hin Hw. specialize (Hm st).
  rewrite Forall_forall in Hm. specialize (Hm ev Hin).
  unfold not_write in Hm. congruence.
Qed.

Lemma get_sleep_data_never_writes srv date rc :
  emits not_write (get_sleep_data srv date rc).
Proof.
  unfold get_sleep_data. generalize (3 - rc). intros fuel. revert rc.
  induction fuel as [|fuel IH]; intros rc; simpl;
    unfold garmin_get_sleep_data; repeat emits_step; auto with emits.
Qed.

(** Fetching leaves the tables alone. *)
Lemma get_sleep_data_rec_pages srv fuel date rc st :
  pages (after (get_sleep_data_rec srv fuel date rc st)) = pages st.
Proof.
  revert rc st. induction fuel as [|fuel IH]; intros rc st; simpl;
    unfold try_except, bind, attempt, garmin_get_sleep_data, garmin_call,
      time_sleep, ret, raise;
    cbn [res after trace];
    destruct (of_reply _) as [v|e]; cbn [res after trace]; try reflexivity;
    destruct (is_rate_limit e); cbn [res after trace]; try reflexivity;
    destruct (Nat.ltb rc 3); cbn [res after trace]; try reflexivity.
  rewrite IH. reflexivity.
Qed.

Lemma some_row_selected database_id f ps :
  Nat.ltb 0 (List.length (select_rows database_id f ps))
  = existsb (fun p => in_table database_id p && matches f p) ps.
Proof.
  unfold select_rows. rewrite length_map.
  induction ps as [|p ps IH]; [reflexivity|].
  cbn [List.filter existsb].
  destruct (in_table database_id p && matches f p); [reflexivity|exact IH].
Qed.

Lemma res_databases_query srv database_id f st rows :
  res (databases_query srv database_id f st) = Ok rows ->
  rows = select_rows database_id f (pages st).
Proof.
  unfold databases_query, table_call.
  destruct (table_fault srv (calls st)); cbn [res]; congruence.
Qed.

Lemma after_databases_query srv database_id f st :
  pages (after (databases_query srv database_id f st)) = pages st.
Proof. reflexivity. Qed.

Lemma trace_databases_query srv database_id f st :
  trace (databases_query srv database_id f st) = [Query database_id f].
Proof. reflexivity. Qed.

(** Peels one pure step off a computation whose trace holds [ev]. *)
Ltac peel_lift H x Hx :=
  apply in_trace_bind in H;
  destruct H as [H|(x & Hx & H)]; [destruct H|];
  cbn [lift res after] in Hx, H.



(** ** The steps collector *)

Lemma py_iadd_app acc v :
  py_iadd acc v =
  match py_iadd [] v with
  | Ok l => Ok (acc ++ l)
  | Raise e => Raise e
  end.
Proof. destruct v; reflexivity. Qed.

Lemma py_iadd_raises_no_rate_limit acc v e :
  py_iadd acc v = Raise e -> is_rate_limit e = false.
Proof. destruct v; cbn; intros H; try discriminate H; injection H as <-; reflexivity. Qed.

Section Collector.

Variable srv : service.

(** One day of the loop, whatever the service answers. *)
Lemma collect_step rc again d days acc st :
  let r := steps_reply srv (calls st) d in
  let next :=
    (if restarts r rc then again
     else collect srv rc again days (acc ++ contribution r)) (called st) in
  res (collect srv rc again (d :: days) acc st) = res next /\
  after (collect srv rc again (d :: days) acc st) = after next.
Proof.
  cbv zeta. cbn [collect].
  unfold bind, attempt, garmin_get_daily_steps, garmin_call, lift, time_sleep,
    ret.
  cbn [res after trace].
  destruct (steps_reply srv (calls st) d) as [v|msg];
    cbn [of_reply res after trace restarts contribution].
  - rewrite (py_iadd_app acc v).
    destruct (py_iadd [] v) as [l|e] eqn:Hv; cbn [res after trace].
    + split; reflexivity.
    + assert (Hno : is_rate_limit e = false)
        by (apply (py_iadd_raises_no_rate_limit [] v); exact Hv).
      rewrite Hno, app_nil_r. split; reflexivity.
  - rewrite app_nil_r.
    destruct (is_rate_limit (RemoteError msg)); cbn [andb res after trace].
    + destruct (Nat.ltb rc 3); split; reflexivity.
    + split; reflexivity.
Qed.

Variable answer : Z -> reply.
Hypothesis consistent : forall n d, steps_reply srv n d = answer d.





End Collector.


Example burst_trace :
  waits (trace (get_all_daily_steps burst 738892%Z 0 (initial [])))
  = [PFloat half; PInt 10; PInt 20; PInt 40; PInt 80;
     PFloat half; PFloat half; PFloat half; PFloat half; PFloat half;
     PFloat half; PFloat half] /\
  res (get_all_daily_steps burst 738892%Z 0 (initial [])) = Ok [].
Proof. split; vm_compute; reflexivity. Qed.



(** ** Running the batch twice *)

(** A stored title is a list of text items, which never equals the string
    "Walking": on such a row [steps_need_update] cannot answer [False]. *)
Lemma steps_need_update_never_false existing_steps new_steps props activity items :
  py_getitem existing_steps "properties" = Ok props ->
  py_getitem props "Activity Type" = Ok activity ->
  py_getitem activity "title" = Ok (PList items) ->
  steps_need_update existing_steps new_steps <> Ok false.
Proof.
  intros Hprops Hactivity Htitle. unfold steps_need_update, rbind.
  rewrite Hprops.
  repeat match goal with
         | |- context [match ?r with Ok _ => _ | Raise _ => _ end] =>
             lazymatch r with
             | py_getitem props "Activity Type" => rewrite Hactivity
             | py_getitem activity "title" => rewrite Htitle
             | _ => destruct r; [|discriminate]
             end
         | |- context [if py_ne ?a ?b then _ else _] =>
             destruct (py_ne a b); [discriminate|]
         end.
  discriminate.
Qed.

(** C1.  The batch run twice on the same upstream data: the first run
    creates the row of the one record; on the second run the row is found,
    it holds exactly what the record gives (same steps, same goal, the
    rounded distance, the "Walking" title), and yet [steps_need_update]
    answers [True] and the row is written again. *)
Theorem unchanged_record_is_rewritten :
  pages (after first_run)
  = [{| page_id := PStr "page-0"; parent := Some "steps";
        props := [("Activity Type", PDict [("title", walking_title)]);
                  ("Date", date_start (PStr "2024-01-05"));
                  ("Total Steps", number (PInt 8000));
                  ("Step Goal", number (PInt 10000));
                  ("Total Distance (km)", number (PFloat six_point_four))] |}] /\
  res (daily_steps_exist one_walk (Some "steps") (PStr "2024-01-05")
         (after first_run)) = Ok walk_row /\
  steps_need_update walk_row (PDict walk) = Ok true /\
  writes (trace second_run)
  = [PagesUpdate (PStr "page-0")
       [("Activity Type", PDict [("title", walking_title)]);
        ("Total Steps", number (PInt 8000));
        ("Step Goal", number (PInt 10000));
        ("Total Distance (km)", number (PFloat six_point_four))]] /\
  pages (after second_run) = pages (after first_run).
Proof. repeat split; vm_compute; reflexivity. Qed.

(** The two comparisons that go wrong on that row: the stored kilometres
    against the metres of the record, and the stored title against a
    string. *)
Example steps_need_update_comparisons :
  py_ne (PFloat six_point_four) (PInt 6400) = true /\
  py_ne walking_title (PStr "Walking") = true /\
  py_ne (PInt 8000) (PInt 8000) = false /\
  py_ne (PInt 10000) (PInt 10000) = false.
Proof. repeat split; vm_compute; reflexivity. Qed.

(** An update that changes the steps of a row keeps its date. *)
Example update_keeps_date :
  let o := update_daily_steps one_walk walk_row
             (PDict [("calendarDate", PStr "2024-01-05");
                     ("totalSteps", PInt 8500); ("stepGoal", PInt 10000);
                     ("totalDistance", PInt 6400)])
             (after first_run) in
  map (fun p => dict_lookup "Total Steps" (props p)) (pages (after o))
  = [Some (number (PInt 8500))] /\
  map stored_date (pages (after o)) = [Some (date_start (PStr "2024-01-05"))].
Proof. split; vm_compute; reflexivity. Qed.

(** ** Errors in the wellness step *)

(** An error raised by the final create or update is swallowed. *)
Lemma try_except_swallows (m : M unit) st :
  res (try_except m (fun _ => ret tt) st) = Ok tt.
Proof.
  unfold try_except, bind, attempt, ret. cbn [res after trace].
  destruct (res (m st)) as [[]|e]; reflexivity.
Qed.

Lemma res_bind_ok {A B} (m : M A) (k : A -> M B) st a :
  res (m st) = Ok a -> res (bind m k st) = res (k a (after (m st))).
Proof. unfold bind. intros ->. reflexivity. Qed.

Lemma res_bind_raise {A B} (m : M A) (k : A -> M B) st e :
  res (m st) = Raise e -> res (bind m k st) = Raise e.
Proof. unfold bind. intros ->. reflexivity. Qed.

Lemma get_sleep_data_returns srv date st v :
  sleep_reply srv (calls st) date = Returns v ->
  get_sleep_data srv date 0 st
  = Out (Ok v) (called st) [GetSleepData date; Sleep (PFloat half)].
Proof.
  intros Hv. unfold get_sleep_data. generalize (3 - 0). intros fuel.
  destruct fuel; simpl;
    unfold try_except, bind, attempt, garmin_get_sleep_data, garmin_call;
    simpl; rewrite Hv; reflexivity.
Qed.

(** On a run with two records where the table service fails once, on the
    query for exercise activities of the first record, the exception is
    not caught: it leaves [update_wellness_database], then [main]; the last
    request of the run is the failed query, and the record of the next day
    is never looked at. *)
Lemma wellness_query_error_aborts_batch :
  res failed_run = Raise (RemoteError "502 Bad Gateway") /\
  last (trace failed_run) Login
  = Query (Some "activities")
      (And [DateEquals "Date" (PStr "2024-01-05");
            SelectDoesNotEqual "Activity Type" "Walking"]) /\
  queries_for "2024-01-06" (trace failed_run) = [].
Proof.
  split; [vm_compute; reflexivity|].
  split; vm_compute; reflexivity.
Qed.

Lemma writes_app evs evs' : writes (evs ++ evs') = writes evs ++ writes evs'.
Proof. apply filter_app. Qed.

Lemma writes_none evs : Forall not_write evs -> writes evs = [].
Proof.
  unfold writes. induction 1 as [|ev evs Hev _ IH]; [reflexivity|].
  cbn [List.filter]. rewrite Hev. exact IH.
Qed.

Lemma guarded_bind {A B} (v : B) (m : M A) (k : A -> M B) :
  emits not_write m -> (forall a, guarded v (k a)) -> guarded v (bind m k).
Proof.
  intros Hm Hk st. unfold bind.
  pose proof (writes_none (Hm st)) as Hnone.
  destruct (m st) as [[a|e] st' tr]; cbn [res after trace] in *.
  - rewrite writes_app, Hnone. exact (Hk a st').
  - left. exact Hnone.
Qed.

Lemma guarded_quiet {A} (v : A) (m : M A) : emits not_write m -> guarded v m.
Proof. intros Hm st. left. apply writes_none, Hm. Qed.

Lemma emits_databases_query P srv database_id f :
  P (Query database_id f) -> emits P (databases_query srv database_id f).
Proof. intros H. apply emits_table_call, H. Qed.

(** Once [update_wellness_database] has reached its final create or
    update, it returns normally. *)
Lemma update_wellness_database_guarded srv env wid steps :
  guarded tt (update_wellness_database srv env wid steps).
Proof.
  unfold update_wellness_database.
  destruct (unset wid); [apply guarded_quiet, emits_ret|].
  do 3 (apply guarded_bind; [apply emits_lift|intros ?]).
  apply guarded_bind; [apply get_sleep_data_never_writes|intros ?].
  apply guarded_bind; [apply emits_lift|intros [? ?]].
  do 2 (apply guarded_bind; [apply emits_lift|intros ?]).
  do 2 (apply guarded_bind; [apply emits_databases_query; reflexivity|intros ?]).
  intros st. right. apply try_except_swallows.
Qed.

Lemma res_bind_lift {A B} (r : result A) (k : A -> M B) st a :
  r = Ok a -> res (bind (lift r) k st) = res (k a st).
Proof. intros ->. reflexivity. Qed.

(** C8, amended.  In [update_wellness_database] an error raised by the
    final create or update is caught: whenever the function has sent a
    write request it returns normally, whatever the table service
    answered.  The two queries are made before the handler: when the
    record's fields are read, the sleep data fetched and the flags
    computed, and the table service fails on the query for exercise
    activities, or answers it and fails on the query for the existing
    entry, that exception comes out of the function. *)
Theorem wellness_write_errors_are_caught :
  (forall srv env wellness_database_id steps st,
     let o := update_wellness_database srv env wellness_database_id steps st in
     writes (trace o) <> [] -> res o = Ok tt) /\
  (forall srv env wellness_database_id steps st steps_date total_steps
          step_goal sleep_data metrics steps_goal_met sleep_goal_met msg,
     unset wellness_database_id = false ->
     py_get steps "calendarDate" PNone = Ok steps_date ->
     py_get steps "totalSteps" (PInt 0) = Ok total_steps ->
     py_get steps "stepGoal" (PInt 10000) = Ok step_goal ->
     res (get_sleep_data srv steps_date 0 st) = Ok sleep_data ->
     extract_sleep_metrics sleep_data = Ok metrics ->
     py_ge total_steps step_goal = Ok steps_goal_met ->
     sleep_goal (fst metrics) (snd metrics) = Ok sleep_goal_met ->
     let n := calls (after (get_sleep_data srv steps_date 0 st)) in
     table_fault srv n = Some msg \/
     (table_fault srv n = None /\ table_fault srv (S n) = Some msg) ->
     res (update_wellness_database srv env wellness_database_id steps st)
     = Raise (RemoteError msg)).
Proof.
  split.
  - intros srv env wid steps st. cbv zeta. intros Hwrites.
    destruct (update_wellness_database_guarded srv env wid steps st)
      as [Hnone|Hok]; [contradiction|exact Hok].
  - intros srv env wid steps st steps_date total_steps step_goal sleep_data
      [sleep_duration sleep_score] steps_goal_met sleep_goal_met msg
      Hset Hdate Htotal Hgoal Hsleep Hmetrics Hsteps Hmet n Hfault.
    cbn [fst snd] in Hmet.
    unfold update_wellness_database. rewrite Hset.
    rewrite (res_bind_lift _ _ Hdate), (res_bind_lift _ _ Htotal),
      (res_bind_lift _ _ Hgoal).
    rewrite (res_bind_ok _ _ _ Hsleep).
    subst n. set (st1 := after (get_sleep_data srv steps_date 0 st)) in *.
    rewrite (res_bind_lift _ _ Hmetrics), (res_bind_lift _ _ Hsteps),
      (res_bind_lift _ _ Hmet).
    destruct Hfault as [Hfirst|[Hfirst Hsecond]].
    + apply res_bind_raise.
      unfold databases_query, table_call. rewrite Hfirst. reflexivity.
    + erewrite res_bind_ok
        by (unfold databases_query, table_call; rewrite Hfirst; reflexivity).
      apply res_bind_raise.
      unfold databases_query, table_call. rewrite Hfirst.
      cbn [after calls with_pages called]. rewrite Hsecond. reflexivity.
Qed.

Lemma wellness_write_errors_are_caught_witness :
  res (update_wellness_database (table_fails_at 3) all_tables
         (Some "wellness") (PDict walk) (initial [])) = Ok tt /\
  res (update_wellness_database (table_fails_at 1) all_tables
         (Some "wellness") (PDict walk) (initial []))
  = Raise (RemoteError "502 Bad Gateway") /\
  res (update_wellness_database (table_fails_at 2) all_tables
         (Some "wellness") (PDict walk) (initial []))
  = Raise (RemoteError "502 Bad Gateway").
Proof.
  destruct wellness_write_errors_are_caught as (Hcaught & Hqueries).
  split; [|split].
  - apply (Hcaught (table_fails_at 3) all_tables (Some "wellness")
                   (PDict walk) (initial [])).
    vm_compute. discriminate.
  - apply (Hqueries (table_fails_at 1) all_tables (Some "wellness")
             (PDict walk) (initial []) (PStr "2024-01-05") (PInt 8000)
             (PInt 10000) PNone (PInt 0, PInt 0) false false);
      try reflexivity.
    left. reflexivity.
  - apply (Hqueries (table_fails_at 2) all_tables (Some "wellness")
             (PDict walk) (initial []) (PStr "2024-01-05") (PInt 8000)
             (PInt 10000) PNone (PInt 0, PInt 0) false false);
      try reflexivity.
    right. split; reflexivity.
Defined.

(** ** The two fetch functions always return

    The depth given to the recursion is enough: neither function runs out
    of it, and neither lets an exception out. *)

Lemma get_sleep_data_rec_returns_always srv fuel date rc st :
  3 <= fuel + rc ->
  exists v, res (get_sleep_data_rec srv fuel date rc st) = Ok v.
Proof.
  revert rc st. induction fuel as [|fuel IH]; intros rc st Hfuel; simpl;
    unfold try_except, bind, attempt, garmin_get_sleep_data, garmin_call,
      time_sleep, ret, raise;
    cbn [res after trace];
    destruct (of_reply _) as [v|e]; cbn [res after trace];
    try (eexists; reflexivity);
    destruct (is_rate_limit e); cbn [res after trace];
    try (eexists; reflexivity);
    destruct (Nat.ltb_spec rc 3) as [Hlt|Hge]; cbn [res after trace];
    try (eexists; reflexivity).
  - cbn [Nat.add] in Hfuel. lia.
  - apply IH. lia.
Qed.

Lemma get_sleep_data_returns_always srv date st :
  exists v, res (get_sleep_data srv date 0 st) = Ok v.
Proof. apply get_sleep_data_rec_returns_always. cbn. lia. Qed.

Lemma collect_returns_always srv rc again days acc st :
  (rc < 3 -> forall st', exists l, res (again st') = Ok l) ->
  exists l, res (collect srv rc again days acc st) = Ok l.
Proof.
  intros Hagain. revert acc st.
  induction days as [|d days IH]; intros acc st.
  - eexists. reflexivity.
  - destruct (collect_step srv rc again d days acc st) as [Hres _].
    cbv zeta in Hres. rewrite Hres.
    destruct (restarts (steps_reply srv (calls st) d) rc) eqn:Hrestart.
    + apply Hagain.
      destruct (steps_reply srv (calls st) d) as [v|msg]; [discriminate|].
      cbn [restarts] in Hrestart. apply andb_true_iff in Hrestart.
      destruct Hrestart as [_ Hlt]. apply Nat.ltb_lt, Hlt.
    + apply IH.
Qed.

Lemma get_all_daily_steps_rec_returns_always srv today fuel rc st :
  3 <= fuel + rc ->
  exists l, res (get_all_daily_steps_rec srv today fuel rc st) = Ok l.
Proof.
  revert rc st. induction fuel as [|fuel IH]; intros rc st Hfuel;
    cbn [get_all_daily_steps_rec]; apply collect_returns_always.
  - cbn [Nat.add] in Hfuel. lia.
  - intros _ st'. apply IH. lia.
Qed.

Lemma get_all_daily_steps_returns_always srv today st :
  exists l, res (get_all_daily_steps srv today 0 st) = Ok l.
Proof. apply get_all_daily_steps_rec_returns_always. cbn. lia. Qed.

(** When the distance cannot be computed nothing is sent. *)
Lemma no_distance_no_request srv record e :
  distance_km (distance_of record) = Raise e ->
  (forall database_id st,
     trace (create_daily_steps srv database_id (PDict record) st) = []) /\
  (forall existing_steps st,
     trace (update_daily_steps srv existing_steps (PDict record) st) = []).
Proof.
  intros Hkm. split; intros x st.
  - unfold create_daily_steps, bind, lift. cbn [py_get res after trace].
    fold (distance_of record). rewrite Hkm. reflexivity.
  - unfold update_daily_steps, bind, lift. cbn [py_get res after trace].
    fold (distance_of record). rewrite Hkm. reflexivity.
Qed.

(** ** More on the sleep fetch *)

Lemma count_requests_app f evs evs' :
  count_requests f (evs ++ evs') = count_requests f evs + count_requests f evs'.
Proof. unfold count_requests. rewrite filter_app, length_app. reflexivity. Qed.

(** The full outcome of one attempt of [get_sleep_data]. *)
Lemma get_sleep_data_rec_step srv fuel date rc st :
  get_sleep_data_rec srv fuel date rc st =
  match sleep_reply srv (calls st) date with
  | Returns v =>
      Out (Ok v) (called st) [GetSleepData date; Sleep (PFloat half)]
  | Fails msg =>
      if is_rate_limit (RemoteError msg) then
        let next :=
          (if Nat.ltb rc 3
           then match fuel with
                | S fuel' => get_sleep_data_rec srv fuel' date (S rc)
                | O => raise RecursionError
                end
           else ret PNone) (called st) in
        Out (res next) (after next)
            (GetSleepData date :: Sleep (PInt (retry_after rc)) :: trace next)
      else Out (Ok PNone) (called st) [GetSleepData date]
  end.
Proof.
  destruct fuel; simpl;
    unfold try_except, bind, attempt, garmin_get_sleep_data, garmin_call;
    simpl; destruct (sleep_reply srv (calls st) date) as [v|msg]; simpl;
    try reflexivity;
    destruct (is_rate_limit (RemoteError msg)); simpl; try reflexivity;
    destruct (Nat.ltb rc 3); reflexivity.
Qed.



Lemma get_sleep_data_rec_provenance srv fuel date rc st v :
  3 <= fuel + rc ->
  res (get_sleep_data_rec srv fuel date rc st) = Ok v ->
  v = PNone \/
  exists n, calls st <= n <= calls st + (3 - rc) /\
            sleep_reply srv n date = Returns v.
Proof.
  revert rc st. induction fuel as [|fuel IH]; intros rc st Hfuel;
    rewrite get_sleep_data_rec_step;
    destruct (sleep_reply srv (calls st) date) as [w|msg] eqn:Hreply;
    cbn [res].
  - intros H. injection H as <-. right. exists (calls st). split; [lia|exact Hreply].
  - destruct (is_rate_limit (RemoteError msg)); cbn [res];
      [destruct (Nat.ltb_spec rc 3) as [Hlt|Hge]; [cbn [Nat.add] in Hfuel; lia|]|];
      cbn [res ret raise]; intros H; injection H as <-; left; reflexivity.
  - intros H. injection H as <-. right. exists (calls st). split; [lia|exact Hreply].
  - destruct (is_rate_limit (RemoteError msg)); cbn [res].
    + destruct (Nat.ltb_spec rc 3) as [Hlt|Hge]; cbn [res ret].
      * intros H. apply IH in H; [|lia].
        destruct H as [H|(n & Hn & Hv)]; [left; exact H|].
        right. exists n. cbn [calls called] in Hn. split; [lia|exact Hv].
      * intros H. injection H as <-. left. reflexivity.
    + intros H. injection H as <-. left. reflexivity.
Qed.

(** X2.  What [get_sleep_data] returns is either [None] or a value the
    service returned for that date in one of the (at most four) calls the
    function made; it makes nothing up. *)
Theorem get_sleep_data_provenance srv date st v :
  res (get_sleep_data srv date 0 st) = Ok v ->
  v = PNone \/
  exists n, calls st <= n <= calls st + 3 /\
            sleep_reply srv n date = Returns v.
Proof.
  intros H. apply (get_sleep_data_rec_provenance srv 3 date 0 st); [lia|exact H].
Qed.

Lemma get_sleep_data_provenance_witness :
  PList [PDict [("sleepTimeSeconds", PInt 25200); ("sleepScore", PInt 90)]]
  = PNone \/
  exists n, calls (initial []) <= n <= calls (initial []) + 3 /\
            sleep_reply slept_well n (PStr "2024-01-05")
            = Returns (PList [PDict [("sleepTimeSeconds", PInt 25200);
                                     ("sleepScore", PInt 90)]]).
Proof.
  apply (get_sleep_data_provenance slept_well (PStr "2024-01-05") (initial [])).
  vm_compute. reflexivity.
Defined.

(** ** More on the steps collector *)

(** One day of the loop, with its requests. *)
Lemma collect_step_trace srv rc again d days acc st :
  let r := steps_reply srv (calls st) d in
  let next :=
    (if restarts r rc then again
     else collect srv rc again days (acc ++ contribution r)) (called st) in
  collect srv rc again (d :: days) acc st =
  Out (res next) (after next)
      (GetDailySteps d :: step_pause r rc ++ trace next).
Proof.
  cbv zeta. cbn [collect].
  unfold bind, attempt, garmin_get_daily_steps, garmin_call, lift, time_sleep,
    ret.
  cbn [res after trace].
  destruct (steps_reply srv (calls st) d) as [v|msg];
    cbn [of_reply res after trace restarts contribution step_pause].
  - rewrite (py_iadd_app acc v).
    destruct (py_iadd [] v) as [l|e] eqn:Hv; cbn [res after trace app].
    + reflexivity.
    + assert (Hno : is_rate_limit e = false)
        by (apply (py_iadd_raises_no_rate_limit [] v); exact Hv).
      rewrite Hno, app_nil_r. reflexivity.
  - rewrite app_nil_r.
    destruct (is_rate_limit (RemoteError msg)); cbn [andb res after trace app].
    + destruct (Nat.ltb rc 3); reflexivity.
    + reflexivity.
Qed.

Lemma count_steps_fetch_pause r rc :
  count_requests is_steps_fetch (step_pause r rc) = 0.
Proof.
  destruct r as [v|msg]; cbn [step_pause].
  - destruct (py_iadd [] v); reflexivity.
  - destruct (is_rate_limit (RemoteError msg)); reflexivity.
Qed.

Lemma collect_fetches_bounded srv rc again days acc st bound :
  (forall st', count_requests is_steps_fetch (trace (again st')) <= bound) ->
  count_requests is_steps_fetch (trace (collect srv rc again days acc st))
  <= List.length days + (if Nat.ltb rc 3 then bound else 0).
Proof.
  intros Hagain. revert acc st.
  induction days as [|d days IH]; intros acc st.
  - cbn. lia.
  - rewrite collect_step_trace. cbv zeta. cbn [trace].
    change (GetDailySteps d :: ?t) with ([GetDailySteps d] ++ t).
    rewrite !count_requests_app, count_steps_fetch_pause.
    cbn [count_requests List.filter is_steps_fetch List.length Nat.add].
    destruct (restarts (steps_reply srv (calls st) d) rc) eqn:Hrestart.
    + assert (Hlt : Nat.ltb rc 3 = true).
      { destruct (steps_reply srv (calls st) d) as [v|msg]; [discriminate|].
        cbn [restarts] in Hrestart. apply andb_true_iff in Hrestart.
        apply Hrestart. }
      rewrite Hlt. specialize (Hagain (called st)).
      unfold count_requests in *. lia.
    + specialize (IH (acc ++ contribution (steps_reply srv (calls st) d))
                     (called st)).
      unfold count_requests in *. lia.
Qed.

Lemma length_daterange today : List.length (daterange today) = 8.
Proof. rewrite daterange_eq. reflexivity. Qed.

Lemma get_all_daily_steps_rec_fetches_bounded srv today fuel rc st :
  count_requests is_steps_fetch
    (trace (get_all_daily_steps_rec srv today fuel rc st))
  <= 8 * S fuel.
Proof.
  revert rc st. induction fuel as [|fuel IH]; intros rc st;
    cbn [get_all_daily_steps_rec].
  - pose proof (collect_fetches_bounded srv rc (raise RecursionError)
                  (daterange today) [] st (bound := 0)) as H.
    rewrite length_daterange in H.
    assert (H0 : forall st', count_requests is_steps_fetch
                   (trace (@raise (list pyval) RecursionError st')) <= 0)
      by (intros st'; cbn; lia).
    specialize (H H0). destruct (Nat.ltb rc 3); lia.
  - pose proof (collect_fetches_bounded srv rc
                  (get_all_daily_steps_rec srv today fuel (S rc))
                  (daterange today) [] st (bound := 8 * S fuel)) as H.
    rewrite length_daterange in H.
    specialize (H (fun st' => IH (S rc) st')).
    destruct (Nat.ltb rc 3); lia.
Qed.

(** X3.  [get_all_daily_steps] never raises, whatever the service does
    (failures, replies that are not lists), and it asks the service for a
    day's steps at most 32 times: eight days in each of at most four
    passes. *)
Theorem get_all_daily_steps_bounded_requests srv today st :
  let o := get_all_daily_steps srv today 0 st in
  (exists l, res o = Ok l) /\
  count_requests is_steps_fetch (trace o) <= 32.
Proof.
  cbv zeta. split.
  - apply get_all_daily_steps_returns_always.
  - unfold get_all_daily_steps. cbn [Nat.sub].
    apply (get_all_daily_steps_rec_fetches_bounded srv today 3 0 st).
Qed.

(** The replies that a pass starting at call number [n] gets for [days],
    when no reply restarts it. *)
Lemma collect_clean_pass srv rc again days acc st :
  (forall i d, nth_error days i = Some d ->
               exists l, steps_reply srv (calls st + i) d = Returns (PList l)) ->
  collect srv rc again days acc st =
  Out (Ok (acc ++ flat_map (fun nd => contribution (steps_reply srv (fst nd) (snd nd)))
                           (combine (seq (calls st) (List.length days)) days)))
      (called_n (List.length days) st)
      (flat_map (fun d => [GetDailySteps d; Sleep (PFloat half)]) days).
Proof.
  revert acc st. induction days as [|d days IH]; intros acc st Hok.
  - cbn. rewrite app_nil_r. reflexivity.
  - rewrite collect_step_trace. cbv zeta.
    destruct (Hok 0 d eq_refl) as (l & Hl).
    rewrite Nat.add_0_r in Hl. rewrite Hl.
    cbn [restarts step_pause py_iadd app contribution].
    rewrite IH.
    + cbn [res after trace List.length seq combine flat_map fst snd called_n
           calls called app].
      rewrite Hl. cbn [contribution py_iadd app]. rewrite app_assoc.
      reflexivity.
    + intros i d' Hi. specialize (Hok (S i) d' Hi).
      cbn [calls called]. replace (S (calls st) + i) with (calls st + S i) by lia.
      exact Hok.
Qed.

(** X4.  When every fetch of the first pass is answered with a list,
    [get_all_daily_steps] makes exactly eight requests, one per day from
    [today - 7] to [today] in ascending order, pauses 0.5 s after each,
    and returns the records of the replies in that order. *)
Theorem get_all_daily_steps_clean_pass srv today st :
  (forall i d, nth_error (daterange today) i = Some d ->
               exists l, steps_reply srv (calls st + i) d = Returns (PList l)) ->
  let o := get_all_daily_steps srv today 0 st in
  trace o = flat_map (fun d => [GetDailySteps d; Sleep (PFloat half)])
                     (daterange today) /\
  res o = Ok (flat_map (fun nd => contribution (steps_reply srv (fst nd) (snd nd)))
                       (combine (seq (calls st) 8) (daterange today))) /\
  calls (after o) = calls st + 8.
Proof.
  intros Hok. cbv zeta. unfold get_all_daily_steps.
  cbn [Nat.sub get_all_daily_steps_rec].
  rewrite (collect_clean_pass srv 0 _ (daterange today) [] st Hok).
  cbn [res after trace app]. rewrite length_daterange, calls_called_n.
  repeat split. lia.
Qed.

Lemma get_all_daily_steps_clean_pass_witness :
  res (get_all_daily_steps one_walk 738892%Z 0 (initial []))
  = Ok [PDict walk] /\
  calls (after (get_all_daily_steps one_walk 738892%Z 0 (initial []))) = 8.
Proof.
  destruct (get_all_daily_steps_clean_pass one_walk 738892%Z (initial []))
    as (_ & Hres & Hcalls).
  - intros i d _. cbn [one_walk steps_reply].
    destruct (Z.eqb d 738890); eexists; reflexivity.
  - split; [exact Hres|exact Hcalls].
Defined.

Lemma collect_provenance srv rc again days acc st (Q : pyval -> Prop) :
  (forall x, In x acc -> Q x) ->
  (forall n d x, In d days -> In x (contribution (steps_reply srv n d)) -> Q x) ->
  (forall st' l x, res (again st') = Ok l -> In x l -> Q x) ->
  forall l x, res (collect srv rc again days acc st) = Ok l -> In x l -> Q x.
Proof.
  intros Hacc Hdays Hagain. revert acc st Hacc.
  induction days as [|d days IH]; intros acc st Hacc l x Hres Hx.
  - cbn in Hres. injection Hres as <-. apply Hacc, Hx.
  - destruct (collect_step srv rc again d days acc st) as [Hstep _].
    cbv zeta in Hstep. rewrite Hstep in Hres.
    destruct (restarts (steps_reply srv (calls st) d) rc).
    + exact (Hagain _ _ _ Hres Hx).
    + refine (IH _ (acc ++ contribution (steps_reply srv (calls st) d))
                 (called st) _ l x Hres Hx).
      * intros n d' y Hd'. apply Hdays. right. exact Hd'.
      * intros y Hy. apply in_app_or in Hy. destruct Hy as [Hy|Hy].
        -- apply Hacc, Hy.
        -- apply (Hdays (calls st) d y); [left; reflexivity|exact Hy].
Qed.

(** X5.  Every record [get_all_daily_steps] returns was returned by the
    service for one of the eight days of the range: the collector passes
    records through and makes none up. *)
Theorem get_all_daily_steps_provenance srv today st l x :
  res (get_all_daily_steps srv today 0 st) = Ok l ->
  In x l ->
  exists n d, In d (daterange today) /\
              In x (contribution (steps_reply srv n d)).
Proof.
  unfold get_all_daily_steps. cbn [Nat.sub].
  generalize 3 at 1. generalize 0. intros rc fuel.
  set (Q := fun y => exists n d, In d (daterange today) /\
                                 In y (contribution (steps_reply srv n d))).
  change (res (get_all_daily_steps_rec srv today fuel rc st) = Ok l ->
          In x l -> Q x).
  revert rc st l x.
  induction fuel as [|fuel IH]; intros rc st l x Hres Hx;
    cbn [get_all_daily_steps_rec] in Hres.
  - apply (@collect_provenance srv rc (raise RecursionError)
             (daterange today) [] st Q)
      with (l := l); [| | |exact Hres|exact Hx].
    + intros y [].
    + intros n d y Hd Hy. exists n, d. split; assumption.
    + intros st' l' y H. discriminate H.
  - apply (@collect_provenance srv rc
             (get_all_daily_steps_rec srv today fuel (S rc))
             (daterange today) [] st Q)
      with (l := l); [| | |exact Hres|exact Hx].
    + intros y [].
    + intros n d y Hd Hy. exists n, d. split; assumption.
    + intros st' l' y H Hy. exact (IH (S rc) st' l' y H Hy).
Qed.

Lemma get_all_daily_steps_provenance_witness :
  exists n d, In d (daterange 738892%Z) /\
              In (PDict walk) (contribution (steps_reply one_bad_day n d)).
Proof.
  apply (get_all_daily_steps_provenance one_bad_day 738892%Z (initial [])
           (l := [PDict walk])).
  - vm_compute. reflexivity.
  - left. reflexivity.
Defined.

(** ** More on [main]: the login that succeeds, the missing wellness table *)

Lemma trace_bind {A B} (m : M A) (k : A -> M B) st :
  trace (bind m k st) =
  trace (m st) ++ match res (m st) with
                  | Ok a => trace (k a (after (m st)))
                  | Raise _ => []
                  end.
Proof.
  unfold bind. destruct (m st) as [[a|e] st' tr]; cbn [res after trace].
  - reflexivity.
  - rewrite app_nil_r. reflexivity.
Qed.

(** X6.  A login that succeeds, at once or at the retry that follows a
    rate-limit failure and a wait of 10 seconds, is followed by the batch:
    [main] ends as the batch ends, and its requests are the login
    requests followed by those of the batch. *)
Theorem main_runs_batch_after_login srv env today st :
  (login_reply srv (calls st) = None ->
   let b := batch srv env today (called st) in
   let o := main srv env today st in
   res o = res b /\ after o = after b /\ trace o = Login :: trace b) /\
  (forall msg,
     login_reply srv (calls st) = Some msg ->
     is_rate_limit (RemoteError msg) = true ->
     login_reply srv (S (calls st)) = None ->
     let b := batch srv env today (called (called st)) in
     let o := main srv env today st in
     res o = res b /\ after o = after b /\
     trace o = Login :: Sleep (PInt 10) :: Login :: trace b).
Proof.
  split.
  - intros Hfirst. cbv zeta. unfold main, bind. rewrite login_run, Hfirst.
    cbn [res after trace app]. repeat split.
  - intros msg Hfirst Hlimit Hsecond. cbv zeta. unfold main, bind.
    rewrite login_run, Hfirst, Hlimit, Hsecond.
    cbn [res after trace app]. repeat split.
Qed.

Lemma main_runs_batch_after_login_witness :
  trace (main one_walk steps_table_only 738892%Z (initial []))
  = Login :: trace (batch one_walk steps_table_only 738892%Z
                      (called (initial []))) /\
  trace (main login_retried steps_table_only 738892%Z (initial []))
  = Login :: Sleep (PInt 10) :: Login
      :: trace (batch login_retried steps_table_only 738892%Z
                  (called (called (initial [])))).
Proof.
  split.
  - destruct (main_runs_batch_after_login one_walk steps_table_only 738892%Z
                (initial [])) as (Hfirst & _).
    apply Hfirst. reflexivity.
  - destruct (main_runs_batch_after_login login_retried steps_table_only
                738892%Z (initial [])) as (_ & Hretry).
    apply (Hretry "429 Client Error: Too Many Requests"); reflexivity.
Defined.

Lemma emits_login P srv :
  P Login -> (forall s, P (Sleep s)) -> emits P (login srv).
Proof.
  intros HL HS. unfold login, garmin_login.
  repeat emits_step; auto with emits.
Qed.

Lemma emits_process_without_wellness srv env steps :
  unset (NOTION_WELLNESS_DB_ID env) = true ->
  emits (touches_only (NOTION_STEPS_DB_ID env)) (process srv env steps).
Proof.
  intros Hunset.
  unfold process, update_wellness_database. rewrite Hunset.
  unfold daily_steps_exist, update_daily_steps, create_daily_steps,
    databases_query, pages_update, pages_create.
  repeat emits_step;
    try (apply emits_table_call; exact I);
    try (apply emits_table_call; reflexivity).
Qed.

(** X7.  When the wellness table is not configured (the variable unset or
    empty), a whole run never fetches sleep data, and every query and
    every create it sends addresses the steps table. *)
Theorem no_wellness_table_no_sleep_fetch srv env today st :
  unset (NOTION_WELLNESS_DB_ID env) = true ->
  Forall (touches_only (NOTION_STEPS_DB_ID env))
         (trace (main srv env today st)).
Proof.
  intros Hunset. revert st.
  change (emits (touches_only (NOTION_STEPS_DB_ID env)) (main srv env today)).
  unfold main. apply emits_bind.
  - apply emits_login; intros; exact I.
  - intros [|]; [|apply emits_ret].
    unfold batch. apply emits_bind.
    + apply emits_get_all_daily_steps_rec; intros; exact I.
    + intros ds. apply emits_for_each. intros x.
      apply emits_process_without_wellness, Hunset.
Qed.

Lemma no_wellness_table_no_sleep_fetch_witness :
  Forall (touches_only (Some "steps"))
         (trace (main one_walk steps_table_only 738892%Z (initial []))).
Proof.
  apply (no_wellness_table_no_sleep_fetch one_walk steps_table_only 738892%Z
           (initial [])).
  reflexivity.
Defined.

(** ** More on the steps table: create or update, never both *)

Lemma select_rows_app database_id f ps ps' :
  select_rows database_id f (ps ++ ps')
  = select_rows database_id f ps ++ select_rows database_id f ps'.
Proof. unfold select_rows. rewrite filter_app, map_app. reflexivity. Qed.

(** A row returned by a query is the object of a stored page. *)
Lemma select_rows_head database_id f ps first rest :
  select_rows database_id f ps = first :: rest ->
  exists p, In p ps /\ first = page_object p /\
            in_table database_id p = true /\ matches f p = true.
Proof.
  unfold select_rows. induction ps as [|p ps IH]; [discriminate|].
  cbn [List.filter].
  destruct (in_table database_id p && matches f p) eqn:Hp.
  - cbn [map]. intros H. injection H as <- _. exists p.
    apply andb_true_iff in Hp. destruct Hp as [Hin Hm].
    repeat split; [left; reflexivity|exact Hin|exact Hm].
  - intros H. destruct (IH H) as (q & Hq & Hrest).
    exists q. split; [right; exact Hq|exact Hrest].
Qed.

(** The requests of [update_daily_steps]: none, or one update of the row
    it was given. *)
Lemma update_daily_steps_requests srv existing_steps new_steps st :
  let t := trace (update_daily_steps srv existing_steps new_steps st) in
  t = [] \/
  exists id properties,
    py_getitem existing_steps "id" = Ok id /\ t = [PagesUpdate id properties].
Proof.
  cbv zeta. unfold update_daily_steps.
  repeat (rewrite trace_bind; cbn [lift res after trace app];
          match goal with
          | |- context [match ?r with Ok _ => _ | Raise _ => _ end] =>
              destruct r eqn:?; [|left; reflexivity]
          end).
  right. eexists _, _. split; [reflexivity|].
  unfold pages_update, table_call.
  destruct (table_fault srv (calls st)); [reflexivity|].
  match goal with |- context [existsb ?f ?l] => destruct (existsb f l) end;
    reflexivity.
Qed.

(** The requests of [create_daily_steps]: none, or one create carrying the
    date, the steps, the goal and the rounded distance of the record. *)
Lemma create_daily_steps_requests srv database_id record st :
  let t := trace (create_daily_steps srv database_id (PDict record) st) in
  t = [] \/
  exists km,
    distance_km (distance_of record) = Ok km /\
    t = [PagesCreate database_id
           (created_properties
              match dict_lookup "calendarDate" record with
              | Some v => v | None => PNone end
              match dict_lookup "totalSteps" record with
              | Some v => v | None => PNone end
              match dict_lookup "stepGoal" record with
              | Some v => v | None => PNone end
              km)].
Proof.
  cbv zeta. unfold create_daily_steps.
  do 4 (rewrite trace_bind; cbn [py_get lift res after trace app]).
  fold (distance_of record).
  rewrite trace_bind. cbn [lift res after trace app].
  destruct (distance_km (distance_of record)) as [km|e]; [|left; reflexivity].
  right. exists km. split; [reflexivity|].
  unfold pages_create, table_call.
  destruct (table_fault srv (calls st)); reflexivity.
Qed.

Lemma writes_single_write ev : is_write ev = true -> writes [ev] = [ev].
Proof. intros H. unfold writes. cbn [List.filter]. rewrite H. reflexivity. Qed.

(** The outcome of [daily_steps_exist]: one query; the first row found,
    [None] when there is none, the exception of the table service when it
    fails. *)
Lemma daily_steps_exist_run srv database_id date st :
  daily_steps_exist srv database_id date st =
  Out match table_fault srv (calls st) with
      | Some msg => Raise (RemoteError msg)
      | None =>
          Ok match select_rows database_id (walking_on date) (pages st) with
             | first :: _ => first
             | [] => PNone
             end
      end
      (called st)
      [Query database_id (walking_on date)].
Proof.
  unfold daily_steps_exist, bind, databases_query, table_call, walking_on.
  destruct (table_fault srv (calls st)); reflexivity.
Qed.

(** X8.  With no wellness table configured, processing a record sends at
    most one write.  When the steps table has no "Walking" row of the
    record's date the write, if any, is a create on the steps table
    carrying that date and the title "Walking"; when it has one, the
    write, if any, is an update of the first such row, and nothing is
    created. *)
Theorem steps_upsert_decision srv env record st :
  unset (NOTION_WELLNESS_DB_ID env) = true ->
  let date := match dict_lookup "calendarDate" record with
              | Some v => v | None => PNone end in
  let w := writes (trace (process srv env (PDict record) st)) in
  match select_rows (NOTION_STEPS_DB_ID env) (walking_on date) (pages st) with
  | [] =>
      w = [] \/
      exists total_steps step_goal km,
        w = [PagesCreate (NOTION_STEPS_DB_ID env)
               (created_properties date total_steps step_goal km)]
  | first :: _ =>
      w = [] \/
      exists id properties,
        py_getitem first "id" = Ok id /\ w = [PagesUpdate id properties]
  end.
Proof.
  intros Hunset. cbv zeta.
  unfold process, update_wellness_database. rewrite Hunset.
  rewrite trace_bind. cbn [py_get lift res after trace app].
  set (date := match dict_lookup "calendarDate" record with
               | Some v => v | None => PNone end).
  rewrite trace_bind, daily_steps_exist_run. cbn [res after trace app].
  destruct (table_fault srv (calls st)) as [msg|].
  { destruct (select_rows _ _ _); left; reflexivity. }
  destruct (select_rows (NOTION_STEPS_DB_ID env) (walking_on date) (pages st))
    as [|first rest] eqn:Hfound.
  - cbn [py_truthy]. rewrite trace_bind.
    destruct (create_daily_steps_requests srv (NOTION_STEPS_DB_ID env) record
                (called st)) as [Hnone|(km & _ & Hone)];
      cbv zeta in *.
    + rewrite Hnone. left.
      destruct (res _); reflexivity.
    + rewrite Hone. right. eexists _, _, km.
      destruct (res _); reflexivity.
  - destruct (select_rows_head _ _ _ Hfound) as (p & _ & -> & _).
    cbn [py_truthy page_object]. rewrite trace_bind, trace_bind.
    cbn [lift res after trace app].
    destruct (steps_need_update _ _) as [[|]|e]; cbn [ret res after trace app];
      try (left; reflexivity).
    destruct (update_daily_steps_requests srv (page_object p) (PDict record)
                (called st))
      as [Hnone|(id & properties & Hid & Hone)]; cbv zeta in *.
    + rewrite Hnone. left.
      destruct (res _); reflexivity.
    + rewrite Hone. right.
      exists id, properties. split; [exact Hid|].
      destruct (res _); reflexivity.
Qed.

Lemma steps_upsert_decision_witness :
  (writes (trace (process one_walk steps_table_only (PDict walk) (initial [])))
   = [] \/
   exists total_steps step_goal km,
     writes (trace (process one_walk steps_table_only (PDict walk)
                      (initial [])))
     = [PagesCreate (Some "steps")
          (created_properties (PStr "2024-01-05") total_steps step_goal km)]) /\
  (writes (trace (process one_walk steps_table_only (PDict walk)
                    (after first_run))) = [] \/
   exists id properties,
     py_getitem walk_row "id" = Ok id /\
     writes (trace (process one_walk steps_table_only (PDict walk)
                      (after first_run)))
     = [PagesUpdate id properties]).
Proof.
  split.
  - exact (steps_upsert_decision one_walk steps_table_only walk (initial [])
             eq_refl).
  - exact (steps_upsert_decision one_walk steps_table_only walk
             (after first_run) eq_refl).
Defined.

(** The row a successful [create_daily_steps] adds to the table. *)
Lemma create_daily_steps_adds_row srv database_id record km st :
  distance_km (distance_of record) = Ok km ->
  table_fault srv (calls st) = None ->
  pages (after (create_daily_steps srv database_id (PDict record) st))
  = pages st ++
    [{| page_id := fresh_id st; parent := database_id;
        props := created_properties
                   match dict_lookup "calendarDate" record with
                   | Some v => v | None => PNone end
                   match dict_lookup "totalSteps" record with
                   | Some v => v | None => PNone end
                   match dict_lookup "stepGoal" record with
                   | Some v => v | None => PNone end
                   km |}].
Proof.
  intros Hkm Hfault.
  unfold create_daily_steps, bind, lift, pages_create, table_call.
  cbn [py_get res after trace]. fold (distance_of record).
  rewrite Hkm. cbn [res after trace calls called]. rewrite Hfault.
  reflexivity.
Qed.

(** X9.  A row created by [create_daily_steps] for a record dated by a
    string is found again by [daily_steps_exist] with that date, in any
    later state with the same rows: the lookup returns a row, not [None],
    so the record is not created a second time.  When the table had no
    "Walking" row of that date before, the row found is the one created,
    with the date, steps, goal and rounded distance of the record. *)
Theorem created_row_is_found srv db record date km st st' :
  dict_lookup "calendarDate" record = Some (PStr date) ->
  distance_km (distance_of record) = Ok km ->
  table_fault srv (calls st) = None ->
  pages st' = pages (after (create_daily_steps srv (Some db) (PDict record) st)) ->
  table_fault srv (calls st') = None ->
  exists row,
    res (daily_steps_exist srv (Some db) (PStr date) st') = Ok row /\
    py_truthy row = true /\
    (select_rows (Some db) (walking_on (PStr date)) (pages st) = [] ->
     row = PDict [("id", fresh_id st);
                  ("properties",
                   PDict (created_properties (PStr date)
                            match dict_lookup "totalSteps" record with
                            | Some v => v | None => PNone end
                            match dict_lookup "stepGoal" record with
                            | Some v => v | None => PNone end
                            km))]).
Proof.
  intros Hdate Hkm Hfault Hpages Hfault'.
  rewrite (create_daily_steps_adds_row srv (Some db) record st Hkm Hfault) in Hpages.
  rewrite Hdate in Hpages.
  rewrite daily_steps_exist_run, Hfault', Hpages, select_rows_app.
  cbn [res].
  assert (Hnew :
            select_rows (Some db) (walking_on (PStr date))
              [{| page_id := fresh_id st; parent := Some db;
                  props := created_properties (PStr date)
                             match dict_lookup "totalSteps" record with
                             | Some v => v | None => PNone end
                             match dict_lookup "stepGoal" record with
                             | Some v => v | None => PNone end
                             km |}]
            = [PDict [("id", fresh_id st);
                      ("properties",
                       PDict (created_properties (PStr date)
                                match dict_lookup "totalSteps" record with
                                | Some v => v | None => PNone end
                                match dict_lookup "stepGoal" record with
                                | Some v => v | None => PNone end
                                km))]]).
  { unfold select_rows, walking_on, created_properties, date_start,
      walking_title.
    cbn -[fresh_id]. rewrite !String.eqb_refl. reflexivity. }
  rewrite Hnew.
  destruct (select_rows (Some db) (walking_on (PStr date)) (pages st))
    as [|first rest] eqn:Hold.
  - eexists. split; [reflexivity|]. split; [reflexivity|]. intros _. reflexivity.
  - destruct (select_rows_head _ _ _ Hold) as (p & _ & -> & _).
    eexists. split; [reflexivity|]. split; [reflexivity|].
    intros H. discriminate H.
Qed.

Lemma created_row_is_found_witness :
  exists row,
    res (daily_steps_exist one_walk (Some "steps") (PStr "2024-01-05")
           (after first_run)) = Ok row /\
    py_truthy row = true /\
    (select_rows (Some "steps") (walking_on (PStr "2024-01-05"))
       (pages (initial [])) = [] ->
     row = PDict [("id", fresh_id (initial []));
                  ("properties",
                   PDict (created_properties (PStr "2024-01-05") (PInt 8000)
                            (PInt 10000) (PFloat six_point_four)))]).
Proof.
  apply (created_row_is_found one_walk "steps" walk (date := "2024-01-05")
           (km := PFloat six_point_four) (initial []) (after first_run)).
  - reflexivity.
  - vm_compute. reflexivity.
  - reflexivity.
  - vm_compute. reflexivity.
  - reflexivity.
Defined.

(** ** More on the wellness table: one row per date *)

(** A write request of [update_wellness_database], in full: the flags it
    carries and the row it addresses. *)
Lemma wellness_write_shape srv env wid steps st ev :
  In ev (trace (update_wellness_database srv env wid steps st)) ->
  is_write ev = true ->
  exists steps_date sleep_data sleep_duration sleep_score
         steps_goal_met sleep_goal_met,
    py_get steps "calendarDate" PNone = Ok steps_date /\
    res (get_sleep_data srv steps_date 0 st) = Ok sleep_data /\
    extract_sleep_metrics sleep_data = Ok (sleep_duration, sleep_score) /\
    sleep_goal sleep_duration sleep_score = Ok sleep_goal_met /\
    let properties :=
      wellness_properties steps_date steps_goal_met sleep_goal_met
        (existsb (exercise_on (NOTION_DB_ID env) steps_date) (pages st)) in
    match select_rows wid (Single (DateEquals "Date" steps_date)) (pages st) with
    | [] => ev = PagesCreate wid properties
    | first :: _ =>
        exists id, py_getitem first "id" = Ok id /\
                   ev = PagesUpdate id properties
    end.
Proof.
  intros Hin Hw.
  unfold update_wellness_database in Hin.
  destruct (unset wid); [destruct Hin|].
  peel_lift Hin steps_date Hdate.
  peel_lift Hin total_steps Htotal.
  peel_lift Hin step_goal Hgoal.
  apply in_trace_bind in Hin.
  destruct Hin as [Hin|(sleep_data & Hsleep & Hin)];
    [exfalso; exact (not_write_in _ _ (get_sleep_data_never_writes _ _ _)
                       Hin Hw)|].
  set (st1 := after (get_sleep_data srv steps_date 0 st)) in *.
  assert (Hpages : pages st1 = pages st)
    by apply get_sleep_data_rec_pages.
  peel_lift Hin metrics Hmetrics.
  destruct metrics as [sleep_duration sleep_score].
  peel_lift Hin steps_goal_met Hsteps.
  peel_lift Hin sleep_goal_met Hgoalmet.
  apply in_trace_bind in Hin.
  destruct Hin as [Hin|(rows & Hrows & Hin)].
  { rewrite trace_databases_query in Hin.
    destruct Hin as [<-|[]]. discriminate Hw. }
  apply res_databases_query in Hrows.
  apply in_trace_bind in Hin.
  destruct Hin as [Hin|(existing & Hexisting & Hin)].
  { rewrite trace_databases_query in Hin.
    destruct Hin as [<-|[]]. discriminate Hw. }
  apply res_databases_query in Hexisting.
  rewrite after_databases_query, Hpages in Hexisting.
  exists steps_date, sleep_data, sleep_duration, sleep_score,
    steps_goal_met, sleep_goal_met.
  repeat (split; [assumption|]).
  assert (Hlogged :
            Nat.ltb 0 (List.length rows)
            = existsb (exercise_on (NOTION_DB_ID env) steps_date) (pages st)).
  { rewrite Hrows, some_row_selected, Hpages. reflexivity. }
  cbv zeta. rewrite <- Hlogged, <- Hexisting.
  unfold try_except in Hin. apply in_trace_bind in Hin.
  destruct Hin as [Hin|(r & _ & Hin)]; [|destruct r; destruct Hin].
  unfold attempt in Hin. cbn [trace] in Hin.
  destruct existing as [|first rest].
  - unfold pages_create, table_call in Hin.
    match type of Hin with
    | context [table_fault ?s ?n] => destruct (table_fault s n)
    end; cbn [trace] in Hin; destruct Hin as [<-|[]]; reflexivity.
  - rewrite trace_bind in Hin. cbn [lift res after trace app] in Hin.
    destruct (py_getitem first "id") as [id|e]; [|destruct Hin].
    exists id. split; [reflexivity|].
    unfold pages_update, table_call in Hin.
    match type of Hin with
    | context [table_fault ?s ?n] => destruct (table_fault s n)
    end; cbn [trace] in Hin;
      [|match type of Hin with
        | context [existsb ?f ?l] => destruct (existsb f l)
        end; cbn [trace] in Hin];
      destruct Hin as [<-|[]]; reflexivity.
Qed.

Lemma writes_bind_quiet {A B} (m : M A) (k : A -> M B) st :
  emits not_write m ->
  writes (trace (bind m k st)) =
  match res (m st) with
  | Ok a => writes (trace (k a (after (m st))))
  | Raise _ => []
  end.
Proof.
  intros Hm. rewrite trace_bind, writes_app, (writes_none (Hm st)).
  destruct (res (m st)); reflexivity.
Qed.

(** [update_wellness_database] sends at most one write request. *)
Lemma update_wellness_database_one_write srv env wid steps st :
  List.length (writes (trace (update_wellness_database srv env wid steps st)))
  <= 1.
Proof.
  unfold update_wellness_database.
  destruct (unset wid); [cbn; lia|].
  repeat
    (rewrite writes_bind_quiet
       by first [apply emits_lift
                |apply get_sleep_data_never_writes
                |apply emits_databases_query; reflexivity];
     match goal with
     | |- context [match ?r with Ok _ => _ | Raise _ => _ end] =>
         destruct r as [?|?]; [|cbn; lia]
     end;
     try match goal with
         | |- context [let '(_, _) := ?p in _] => destruct p
         end).
  unfold try_except. rewrite trace_bind. unfold attempt at 1 2.
  cbn [res after trace].
  match goal with
  | |- context [trace (match ?e with [] => _ | _ :: _ => _ end ?s)] =>
      destruct e as [|first rest]
  end.
  - unfold pages_create, table_call.
    match goal with
    | |- context [table_fault ?s ?n] => destruct (table_fault s n)
    end; cbn [res after trace app];
      repeat match goal with
             | |- context [match ?r with Ok _ => _ | Raise _ => _ end] =>
                 destruct r
             end; cbn; lia.
  - rewrite trace_bind. cbn [lift res after trace app].
    destruct (py_getitem first "id") as [id|e]; cbn [res after trace app].
    + unfold pages_update, table_call.
      match goal with
      | |- context [table_fault ?s ?n] => destruct (table_fault s n)
      end; cbn [res after trace app];
        [|match goal with
          | |- context [existsb ?f ?l] => destruct (existsb f l)
          end; cbn [res after trace app]];
        repeat match goal with
               | |- context [match ?r with Ok _ => _ | Raise _ => _ end] =>
                   destruct r
               end; cbn; lia.
    + repeat match goal with
             | |- context [match ?r with Ok _ => _ | Raise _ => _ end] =>
                 destruct r
             end; cbn; lia.
Qed.

(** X10.  [update_wellness_database] sends at most one write request.  It
    is a create on the wellness table when that table has no row of the
    record's date, and otherwise an update of the first row of that date:
    a date that has a row never gets a second one. *)
Theorem wellness_upsert_decision srv env wid steps st :
  let o := update_wellness_database srv env wid steps st in
  List.length (writes (trace o)) <= 1 /\
  (forall ev steps_date,
     In ev (trace o) -> is_write ev = true ->
     py_get steps "calendarDate" PNone = Ok steps_date ->
     match select_rows wid (Single (DateEquals "Date" steps_date)) (pages st)
     with
     | [] => exists properties, ev = PagesCreate wid properties
     | first :: _ =>
         exists id properties,
           py_getitem first "id" = Ok id /\ ev = PagesUpdate id properties
     end).
Proof.
  cbv zeta. split; [apply update_wellness_database_one_write|].
  intros ev steps_date Hin Hw Hdate.
  destruct (wellness_write_shape _ _ _ _ _ _ Hin Hw)
    as (date & data & dur & score & b1 & b2 & Hdate' & _ & _ & _ & Hev).
  rewrite Hdate in Hdate'. injection Hdate' as <-. cbv zeta in Hev.
  destruct (select_rows wid _ (pages st)) as [|first rest].
  - eexists. exact Hev.
  - destruct Hev as (id & Hid & Hev). exists id. eexists. split; eassumption.
Qed.

(** A wellness row of the day of [walk]. *)
Lemma wellness_upsert_decision_witness :
  exists properties,
    PagesCreate (Some "wellness")
      (wellness_properties (PStr "2024-01-05") false true true)
    = PagesCreate (Some "wellness") properties.
Proof.
  destruct (wellness_upsert_decision slept_well all_tables (Some "wellness")
              (PDict walk) (initial [a_run])) as (_ & Hdecision).
  apply (Hdecision
           (PagesCreate (Some "wellness")
              (wellness_properties (PStr "2024-01-05") false true true))
           (PStr "2024-01-05")).
  - vm_compute. do 4 right. left. reflexivity.
  - reflexivity.
  - reflexivity.
Defined.



(** ** More on the extractor: what it returns *)

Lemma py_truediv_float a b v :
  py_truediv a b = Ok v -> exists f, v = PFloat f.
Proof.
  unfold py_truediv, rbind.
  destruct a, b; cbn [as_int];
    repeat match goal with
           | |- context [match ?r with Ok _ => _ | Raise _ => _ end] =>
               destruct r
           end;
    intros H; try discriminate H; injection H as <-; eexists; reflexivity.
Qed.

Lemma py_int_int v w : py_int v = Ok w -> exists z, w = PInt z.
Proof.
  unfold py_int, rbind. destruct v;
    repeat match goal with
           | |- context [match ?r with Ok _ => _ | Raise _ => _ end] =>
               destruct r
           | |- context [match ?r with Some _ => _ | None => _ end] =>
               destruct r
           end;
    intros H; try discriminate H; injection H as <-; eexists; reflexivity.
Qed.

Lemma py_ge_float_int f z : exists b, py_ge (PFloat f) (PInt z) = Ok b.
Proof.
  cbn. destruct (cmp_int_float z f) as [[| |]|]; cbn; eexists; reflexivity.
Qed.

(** X12.  Whenever [extract_sleep_metrics] returns a pair, the duration is
    a float, or the pair is the [(0, 0)] of missing data; so the
    comparison [sleep_duration >= 7] that follows is always defined.  In
    the nested shape the score returned is an int. *)
Theorem extract_sleep_metrics_result_types sleep_data sleep_duration sleep_score :
  extract_sleep_metrics sleep_data = Ok (sleep_duration, sleep_score) ->
  ((sleep_duration = PInt 0 /\ sleep_score = PInt 0) \/
   exists f, sleep_duration = PFloat f) /\
  (exists b, py_ge sleep_duration (PInt 7) = Ok b) /\
  (forall d, sleep_data = PDict d -> dict_has "dailySleepDTO" d = true ->
             exists z, sleep_score = PInt z).
Proof.
  intros H.
  assert (Hshape :
            ((sleep_duration = PInt 0 /\ sleep_score = PInt 0) \/
             exists f, sleep_duration = PFloat f) /\
            (forall d, sleep_data = PDict d ->
                       dict_has "dailySleepDTO" d = true ->
                       exists z, sleep_score = PInt z)).
  { unfold extract_sleep_metrics, rbind in H.
    destruct (negb (py_truthy sleep_data)).
    { injection H as <- <-. split; [left; split; reflexivity|].
      intros; eexists; reflexivity. }
    destruct sleep_data as [| | | | |l|d];
      try (injection H as <- <-; split;
           [left; split; reflexivity|intros d' Hd'; discriminate Hd']).
    - destruct l as [|entry rest];
        [injection H as <- <-; split;
         [left; split; reflexivity|intros d' Hd'; discriminate Hd']|].
      destruct (py_get entry "sleepTimeSeconds" (PInt 0)) as [seconds|];
        [|discriminate H].
      destruct (py_truediv seconds (PInt 3600)) as [q|] eqn:Hq;
        [|discriminate H].
      destruct (py_get entry "sleepScore" (PInt 0)); [|discriminate H].
      injection H as <- <-. split; [|intros d' Hd'; discriminate Hd'].
      right. exact (py_truediv_float _ _ Hq).
    - destruct (dict_has "dailySleepDTO" d) eqn:Hnested.
      + destruct (py_getitem (PDict d) "dailySleepDTO") as [daily|];
          [|discriminate H].
        destruct (py_get daily "sleepTimeSeconds" (PInt 0)) as [seconds|];
          [|discriminate H].
        destruct (py_truediv seconds (PInt 3600)) as [q|] eqn:Hq;
          [|discriminate H].
        destruct (py_truediv_float _ _ Hq) as (f & ->).
        assert (Hscore : exists z, sleep_score = PInt z /\ sleep_duration = PFloat f).
        { destruct (py_in "sleepScores" daily) as [has|]; [|discriminate H].
          destruct (if has then py_getitem daily "sleepScores"
                    else Ok (PBool false)) as [scores|]; [|discriminate H].
          destruct (py_truthy scores);
            [|injection H as <- <-; eexists; split; reflexivity].
          destruct (py_get scores "overall" (PDict [])) as [overall|];
            [|discriminate H].
          destruct overall as [| | | | |l|o];
            cbn [is_int_float_str] in H;
            try (injection H as <- <-; eexists; split; reflexivity);
            try (match type of H with
                 | context [py_int ?v] =>
                     destruct (py_int v) as [w|] eqn:Hw; [|discriminate H];
                     destruct (py_int_int _ Hw) as (z & ->);
                     injection H as <- <-; eexists; split; reflexivity
                 end).
          destruct (dict_has "value" o);
            [|injection H as <- <-; eexists; split; reflexivity].
          destruct (py_getitem (PDict o) "value") as [value|]; [|discriminate H].
          destruct (py_int value) as [w|] eqn:Hw; [|discriminate H].
          destruct (py_int_int _ Hw) as (z & ->).
          injection H as <- <-. eexists; split; reflexivity. }
        destruct Hscore as (z & -> & ->).
        split; [right; eexists; reflexivity|intros; eexists; reflexivity].
      + destruct (py_get (PDict d) "sleepTimeSeconds" (PInt 0)) as [seconds|];
          [|discriminate H].
        destruct (py_truediv seconds (PInt 3600)) as [q|] eqn:Hq;
          [|discriminate H].
        destruct (py_get (PDict d) "sleepScore" (PInt 0)); [|discriminate H].
        injection H as <- <-. split.
        * right. exact (py_truediv_float _ _ Hq).
        * intros d' Hd' Hhas. injection Hd' as <-. congruence. }
  destruct Hshape as [Hduration Hnested].
  split; [exact Hduration|]. split; [|exact Hnested].
  destruct Hduration as [[-> _]|(f & ->)].
  - eexists. reflexivity.
  - apply py_ge_float_int.
Qed.

Lemma extract_sleep_metrics_result_types_witness :
  ((PFloat seven_and_a_half = PInt 0 /\ PInt 88 = PInt 0) \/
   exists f, PFloat seven_and_a_half = PFloat f) /\
  (exists b, py_ge (PFloat seven_and_a_half) (PInt 7) = Ok b) /\
  (forall d,
     PDict [("dailySleepDTO",
             PDict [("sleepTimeSeconds", PInt 27000);
                    ("sleepScores",
                     PDict [("overall", PDict [("value", PStr "88")])])])]
     = PDict d ->
     dict_has "dailySleepDTO" d = true -> exists z, PInt 88 = PInt z).
Proof.
  apply (extract_sleep_metrics_result_types
           (PDict [("dailySleepDTO",
                    PDict [("sleepTimeSeconds", PInt 27000);
                           ("sleepScores",
                            PDict [("overall",
                                    PDict [("value", PStr "88")])])])])).
  vm_compute. reflexivity.
Defined.

(** ** More on the rate-limit test *)

Lemma prefix_iff s1 s2 :
  String.prefix s1 s2 = true <-> exists b, s2 = (s1 ++ b)%string.
Proof.
  revert s2. induction s1 as [|a s1 IH]; intros s2.
  - split; [intros _; exists s2; reflexivity|].
    intros _. destruct s2; reflexivity.
  - destruct s2 as [|c s2]; cbn [String.prefix].
    + split; [discriminate|]. intros (b & Hb). discriminate Hb.
    + destruct (ascii_dec a c) as [->|Hne].
      * rewrite IH. split; intros (b & Hb); exists b.
        -- cbn. rewrite Hb. reflexivity.
        -- cbn in Hb. injection Hb as ->. reflexivity.
      * split; [discriminate|]. intros (b & Hb). cbn in Hb.
        injection Hb as Hac _. symmetry in Hac. contradiction.
Qed.

Lemma contains_iff needle hay :
  contains needle hay = true <->
  exists a b, hay = (a ++ needle ++ b)%string.
Proof.
  induction hay as [|c hay IH]; cbn [contains].
  - rewrite orb_false_r, prefix_iff. split.
    + intros (b & Hb). exists EmptyString, b. exact Hb.
    + intros (a & b & Hab). destruct a as [|x a]; [|discriminate Hab].
      exists b. exact Hab.
  - rewrite orb_true_iff, prefix_iff, IH. split.
    + intros [(b & Hb)|(a & b & Hab)].
      * exists EmptyString, b. exact Hb.
      * exists (String c a), b. cbn. rewrite Hab. reflexivity.
    + intros (a & b & Hab). destruct a as [|x a].
      * left. exists b. exact Hab.
      * right. cbn in Hab. injection Hab as _ Hab. exists a, b. exact Hab.
Qed.

(** X13.  The three handlers treat a failure of a client as a rate limit
    exactly when its message has "429" or "Too Many Requests" somewhere in
    it, whatever surrounds the marker. *)
Theorem is_rate_limit_iff_marker msg :
  is_rate_limit (RemoteError msg) = true <->
  (exists a b, msg = (a ++ "429" ++ b)%string) \/
  (exists a b, msg = (a ++ "Too Many Requests" ++ b)%string).
Proof.
  unfold is_rate_limit. rewrite orb_true_iff, !contains_iff. reflexivity.
Qed.

(** A message that only holds the digits 429 inside a number is retried
    too. *)
Example is_rate_limit_inside_a_number :
  is_rate_limit (RemoteError "order 14290 not found") = true /\
  is_rate_limit (RemoteError "500 Internal Server Error") = false /\
  is_rate_limit (RemoteError "too many requests") = false.
Proof. repeat split. Qed.

(** ** More on the batch: how much it writes *)

Lemma update_daily_steps_writes_bounded srv existing_steps new_steps st :
  List.length (writes (trace (update_daily_steps srv existing_steps new_steps st)))
  <= 1.
Proof.
  destruct (update_daily_steps_requests srv existing_steps new_steps st)
    as [H|(id & properties & _ & H)]; cbv zeta in H; rewrite H; cbn; lia.
Qed.

Lemma create_daily_steps_writes_bounded srv database_id steps st :
  List.length (writes (trace (create_daily_steps srv database_id steps st)))
  <= 1.
Proof.
  destruct steps as [| | | | | |record];
    try (unfold create_daily_steps; rewrite trace_bind; cbn; lia).
  destruct (create_daily_steps_requests srv database_id record st)
    as [H|(km & _ & H)]; cbv zeta in H; rewrite H; cbn; lia.
Qed.

Lemma daily_steps_exist_never_writes srv database_id date :
  emits not_write (daily_steps_exist srv database_id date).
Proof.
  unfold daily_steps_exist, databases_query.
  repeat emits_step; auto with emits.
Qed.

(** Processing one record sends at most two writes. *)
Lemma process_writes_bounded srv env steps st :
  List.length (writes (trace (process srv env steps st))) <= 2.
Proof.
  unfold process.
  rewrite writes_bind_quiet by apply emits_lift.
  destruct (res _) as [steps_date|]; [|cbn; lia].
  rewrite writes_bind_quiet by apply daily_steps_exist_never_writes.
  destruct (res _) as [existing|]; [|cbn; lia].
  rewrite trace_bind, writes_app, length_app.
  match goal with
  | |- List.length (writes (trace (?m ?s))) + _ <= 2 =>
      assert (Hsteps : List.length (writes (trace (m s))) <= 1)
  end.
  { destruct (py_truthy existing).
    - rewrite writes_bind_quiet by apply emits_lift.
      destruct (res _) as [[|]|]; try (cbn; lia).
      apply update_daily_steps_writes_bounded.
    - apply create_daily_steps_writes_bounded. }
  destruct (res _); [|cbn [writes List.filter List.length]; lia].
  pose proof (update_wellness_database_one_write srv env
                (NOTION_WELLNESS_DB_ID env) steps) as Hwellness.
  match goal with
  | |- _ + List.length (writes (trace (_ ?s))) <= 2 =>
      specialize (Hwellness s)
  end.
  lia.
Qed.

Lemma for_each_writes_bounded {A} (body : A -> M unit) bound xs st :
  (forall x st', List.length (writes (trace (body x st'))) <= bound) ->
  List.length (writes (trace (for_each xs body st)))
  <= bound * List.length xs.
Proof.
  intros Hbody. revert st. induction xs as [|x xs IH]; intros st.
  - cbn. lia.
  - cbn [for_each]. rewrite trace_bind, writes_app, length_app.
    specialize (Hbody x st).
    destruct (res (body x st)); cbn [List.length].
    + specialize (IH (after (body x st))). lia.
    + cbn. lia.
Qed.

Lemma get_all_daily_steps_never_writes srv today rc :
  emits not_write (get_all_daily_steps srv today rc).
Proof.
  unfold get_all_daily_steps.
  apply emits_get_all_daily_steps_rec; intros; reflexivity.
Qed.

(** X14.  The batch sends at most two write requests per record
    collected: at most one to the steps table and at most one to the
    wellness table for each. *)
Theorem batch_writes_bounded srv env today st records :
  res (get_all_daily_steps srv today 0 st) = Ok records ->
  List.length (writes (trace (batch srv env today st)))
  <= 2 * List.length records.
Proof.
  intros Hrecords. unfold batch.
  rewrite writes_bind_quiet by apply get_all_daily_steps_never_writes.
  rewrite Hrecords.
  apply for_each_writes_bounded. intros x st'. apply process_writes_bounded.
Qed.

Lemma batch_writes_bounded_witness :
  List.length (writes (trace (batch slept_well all_tables 738892%Z
                                (initial [a_run]))))
  <= 2 * List.length [PDict walk].
Proof.
  apply (batch_writes_bounded slept_well all_tables 738892%Z (initial [a_run])).
  vm_compute. reflexivity.
Defined.

(** ** More on [steps_need_update] *)

(** X15.  Against a row as [create_daily_steps] writes it, whatever its
    values, [steps_need_update] answers [True] for every record: the
    stored title is a list of text items, which differs from the string
    "Walking" the function compares it with. *)
Theorem steps_need_update_true_on_created_rows
    id calendar_date total_steps step_goal km record :
  steps_need_update
    (PDict [("id", id);
            ("properties",
             PDict (created_properties calendar_date total_steps step_goal km))])
    (PDict record)
  = Ok true.
Proof.
  unfold steps_need_update, rbind, created_properties, number.
  cbn [py_getitem py_get dict_lookup String.eqb Ascii.eqb Bool.eqb].
  repeat match goal with
         | |- context [if py_ne ?a ?b then _ else _] =>
             destruct (py_ne a b); [reflexivity|]
         end.
  reflexivity.
Qed.
